(** * django-perf-rec: cache-operation recording, verified against its source

    A shallow embedding of

    - [django_perf_rec/cache.py] (current package) and
      [django_performance_recorder/cache.py] (earlier package):
      [CacheOp], [CacheRecorder], [AllCacheRecorder];
    - [django_performance_recorder/api.py]: [record], [PerformanceRecorder].

    Python strings are modelled as [string] (sequences of 8-bit characters);
    the regular-expression classes [\d], [\w] and [\b] are therefore the ASCII
    ones.  Python exceptions are values of [Exn]; a call that can raise
    returns [Exn + A]. *)

From Stdlib Require Import Ascii String List.
From stdpp Require Import base option list strings pretty sorting gmap fin_maps.

Local Open Scope string_scope.
Local Open Scope list_scope.
Set Warnings "-register-all".

(** ** Python values and exceptions *)

(** The values a caller can pass as an argument of a cache method. *)
Inductive PyVal : Type :=
| PyNone
| PyInt (z : Z)
| PyStr (s : string)
| PyList (xs : list PyVal)
| PyTuple (xs : list PyVal)
| PyDict (items : list (PyVal * PyVal))
| PySet (xs : list PyVal).

Inductive Exn : Type :=
| ValueError (msg : string)
| TypeError
| IndexError
| KeyError
| AttributeError
| AssertionError (msg : string)
| InvalidCacheBackendError
| BackendError (tag : string).

Definition Result (A : Type) : Type := Exn + A.

Definition ok {A} (a : A) : Result A := inr a.
Definition raise {A} (e : Exn) : Result A := inl e.

Definition Result_bind {A B} (r : Result A) (k : A → Result B) : Result B :=
  match r with
  | inl e => inl e
  | inr a => k a
  end.

(** Code that reads and writes a store [S] and can raise: the store
    survives an exception, as mutations made before a Python [raise] do. *)
Definition M (S A : Type) : Type := S → Result A * S.

Definition ret {S A} (a : A) : M S A := λ s, (ok a, s).
Definition throw {S A} (e : Exn) : M S A := λ s, (raise e, s).
Definition get {S} : M S S := λ s, (ok s, s).
Definition put {S} (s : S) : M S unit := λ _, (ok tt, s).

Definition bind {S A B} (c : M S A) (k : A → M S B) : M S B :=
  λ s, match c s with
       | (inl e, s') => (inl e, s')
       | (inr a, s') => k a s'
       end.

Notation "x <- c ;; k" := (bind c (λ x, k))
  (at level 100, c at next level, right associativity).
Notation "c ;; k" := (bind c (λ _, k))
  (at level 100, right associativity).

(** [for x in l: body(x)] *)
Fixpoint for_each {S A} (l : list A) (body : A → M S unit) : M S unit :=
  match l with
  | [] => ret tt
  | x :: l' => body x ;; for_each l' body
  end.

(** Running code written against a part [T] of the store [S]. *)
Definition zoom {S T A} (proj : S → T) (inj : T → S → S) (c : M T A) : M S A :=
  λ s, let '(r, t) := c (proj s) in (r, inj t s).


(** [isinstance(v, str)] *)
Definition isinstance_str (v : PyVal) : bool :=
  match v with PyStr _ => true | _ => false end.

(** [isinstance(v, (Mapping, Sequence))]: strings, lists and tuples are
    sequences, dicts are mappings; sets, integers and [None] are neither. *)
Definition isinstance_Mapping_Sequence (v : PyVal) : bool :=
  match v with
  | PyStr _ | PyList _ | PyTuple _ | PyDict _ => true
  | PyNone | PyInt _ | PySet _ => false
  end.

(** [for k in v]: a dict iterates over its keys, a string over its
    one-character substrings. *)
Fixpoint chars (s : string) : list PyVal :=
  match s with
  | EmptyString => []
  | String c s' => PyStr (String c EmptyString) :: chars s'
  end.

Definition py_iter (v : PyVal) : list PyVal :=
  match v with
  | PyList xs | PyTuple xs | PySet xs => xs
  | PyDict items => fst <$> items
  | PyStr s => chars s
  | PyNone | PyInt _ => []
  end.

(** ** Regular expressions, as far as [VARIABLE_RES] uses them *)

(** A character class is a list of inclusive ranges, [[0-9a-f]] being
    [[("0","9"); ("a","f")]]. *)
Definition charset : Type := list (ascii * ascii).

Definition in_range (c : ascii) (r : ascii * ascii) : bool :=
  (N_of_ascii (fst r) <=? N_of_ascii c)%N && (N_of_ascii c <=? N_of_ascii (snd r))%N.

Definition in_class (cls : charset) (c : ascii) : bool :=
  existsb (in_range c) cls.

Definition digit : charset := [("0", "9")]%char.
Definition hex : charset := [("0", "9"); ("a", "f")]%char.
Definition alnum_lower : charset := [("0", "9"); ("a", "z")]%char.
Definition word : charset := [("a", "z"); ("A", "Z"); ("0", "9"); ("_", "_")]%char.

Inductive re_node : Type :=
| Lookbehind (lit : string)          (* (?<=lit) *)
| WordBoundary                       (* \b *)
| Char (c : ascii)                   (* a literal character *)
| Repeat (cls : charset) (n : nat)   (* [cls]{n} *)
| OneOrMore (cls : charset).         (* [cls]+, greedy *)

Definition regex : Type := list re_node.

(** The text before the current position is kept reversed, nearest
    character first. *)
Fixpoint starts_with (lit s : string) : bool :=
  match lit, s with
  | EmptyString, _ => true
  | String a lit', String b s' => if decide (a = b) then starts_with lit' s' else false
  | String _ _, EmptyString => false
  end.

Definition is_word_at (s : string) : bool :=
  match s with
  | EmptyString => false
  | String c _ => in_class word c
  end.

(** [\b]: exactly one of the two neighbouring positions holds a word
    character. *)
Definition at_boundary (before s : string) : bool :=
  xorb (is_word_at before) (is_word_at s).

(** [match_here p before s]: the number of characters of [s] that [p]
    matches at the current position, by backtracking with greedy [+]. *)
Fixpoint match_here (p : regex) (before s : string) {struct p} : option nat :=
  match p with
  | [] => Some 0
  | Lookbehind lit :: p' =>
      if starts_with (String.rev lit) before then match_here p' before s else None
  | WordBoundary :: p' =>
      if at_boundary before s then match_here p' before s else None
  | Char c :: p' =>
      match s with
      | String c' s' =>
          if decide (c = c') then S <$> match_here p' (String c' before) s' else None
      | EmptyString => None
      end
  | Repeat cls n :: p' =>
      (fix rep (n : nat) (before s : string) {struct n} : option nat :=
         match n with
         | 0 => match_here p' before s
         | S n' =>
             match s with
             | String c s' =>
                 if in_class cls c then S <$> rep n' (String c before) s' else None
             | EmptyString => None
             end
         end) n before s
  | OneOrMore cls :: p' =>
      (fix plus (before s : string) {struct s} : option nat :=
         match s with
         | String c s' =>
             if in_class cls c then
               match plus (String c before) s' with
               | Some k => Some (S k)
               | None => S <$> match_here p' (String c before) s'
               end
             else None
         | EmptyString => None
         end) before s
  end.

(** [re.sub]: scan left to right; at each position not inside an earlier
    match try the pattern, replace the leftmost match and continue after it.
    [skip] counts the characters of the last match still to be passed over.
    No pattern of [VARIABLE_RES] matches the empty string, so a zero-width
    match is treated as no match. *)
Fixpoint sub_scan (p : regex) (repl before : string) (skip : nat) (s : string) : string :=
  match s with
  | EmptyString => EmptyString
  | String c s' =>
      match skip with
      | S k => sub_scan p repl (String c before) k s'
      | 0 =>
          match match_here p before s with
          | Some (S k) => repl +:+ sub_scan p repl (String c before) k s'
          | _ => String c (sub_scan p repl (String c before) 0 s')
          end
      end
  end.

Definition re_sub (p : regex) (repl s : string) : string :=
  sub_scan p repl EmptyString 0 s.

(** ** [CacheOp] *)

(** The two packages under [src/] differ in the pattern table only (and in
    the name of the first attribute, [alias] against [cache_name]). *)
Inductive Package : Type :=
| django_perf_rec
| django_performance_recorder.

Definition session_key (prefix : string) : regex :=
  [Lookbehind prefix; Repeat alnum_lower 32; WordBoundary].

Definition long_hash : regex :=
  [WordBoundary; Repeat hex 32; WordBoundary].

Definition uuid : regex :=
  [Repeat hex 8; Char "-"; Repeat hex 4; Char "-"; Repeat hex 4; Char "-";
   Repeat hex 4; Char "-"; Repeat hex 12].

Definition integers : regex := [OneOrMore digit].

Definition VARIABLE_RES (pkg : Package) : list regex :=
  match pkg with
  | django_perf_rec =>
      [ session_key "django.contrib.sessions.cache";
        session_key "django.contrib.sessions.cached_db";
        long_hash; uuid; integers ]
  | django_performance_recorder =>
      [ long_hash; uuid; integers ]
  end.

(** [for var_re in rules: key = var_re.sub("#", key)] *)
Definition apply_rules (rules : list regex) (key : string) : string :=
  foldl (λ key var_re, re_sub var_re "#" key) key rules.

Definition clean_key (pkg : Package) (key : string) : string :=
  apply_rules (VARIABLE_RES pkg) key.

(** [clean_key] on an arbitrary value: the first [var_re.sub] raises
    [TypeError] unless the key is a string. *)
Definition clean_key_py (pkg : Package) (key : PyVal) : Result string :=
  match key with
  | PyStr s => ok (clean_key pkg s)
  | _ => raise TypeError
  end.

Inductive KeyOrKeys : Type :=
| Key (k : string)
| Keys (ks : list string).

Record CacheOp : Type := mkCacheOp {
  alias : string;
  operation : string;
  key_or_keys : KeyOrKeys;
}.

Global Instance KeyOrKeys_eq_dec : EqDecision KeyOrKeys.
Proof. solve_decision. Defined.

Global Instance CacheOp_eq_dec : EqDecision CacheOp.
Proof. solve_decision. Defined.

(** [sorted(...)] on strings: a stable merge sort by code point order. *)
Definition sorted (ks : list string) : list string :=
  merge_sort String.le ks.

(** [[f(k) for k in ks]] for an [f] that can raise. *)
Fixpoint map_result {A B} (f : A → Result B) (l : list A) : Result (list B) :=
  match l with
  | [] => ok []
  | x :: l' => Result_bind (f x) (λ y, Result_bind (map_result f l') (λ ys, ok (y :: ys)))
  end.

(** [CacheOp.__init__] *)
Definition CacheOp_init (pkg : Package) (alias operation : string)
    (key_or_keys : PyVal) : Result CacheOp :=
  match key_or_keys with
  | PyStr s => ok (mkCacheOp alias operation (Key (clean_key pkg s)))
  | _ =>
      if isinstance_Mapping_Sequence key_or_keys then
        Result_bind (map_result (clean_key_py pkg) (py_iter key_or_keys))
          (λ ks, ok (mkCacheOp alias operation (Keys (sorted ks))))
      else raise (ValueError "key_or_keys must be a string, mapping, or sequence")
  end.

(** [CacheOp.__eq__] *)
Definition CacheOp_eq (self other : CacheOp) : bool :=
  bool_decide (alias self = alias other)
  && bool_decide (operation self = operation other)
  && bool_decide (key_or_keys self = key_or_keys other).


(** ** Cache backends and their methods *)

Definition Kwargs : Type := list (string * PyVal).

(** [(type_, value, traceback)] as passed to [__exit__]: [None] on a normal
    exit of the [with] block. *)
Definition ExcInfo : Type := option Exn.

(** [self] of the calling frame, [frame.f_back.f_locals.get("self", None)]:
    [Some a] when it is the cache object configured as [a], [None] when the
    caller has no [self] or another object. *)
Definition Frame : Type := option string.

Section Recorder.

(** [D] is what a backend stores, [L] what the recorder's callback
    accumulates.  A callback is a function on [L]: it neither raises nor
    touches a backend, as [PerformanceRecorder.on_cache_op], the one callback
    of the package, does. *)
Context {D L : Type}.
Variable pkg : Package.

(** The code of a backend method: it returns or raises, reads or writes the
    backend's store, or calls a method on [self]; such a call is looked up
    on the instance, so it reaches whatever is installed there. *)
Inductive Prog : Type :=
| Return (r : Result PyVal)
| Access (f : D → D * PyVal) (k : PyVal → Prog)
| CallSelf (name : string) (args : list PyVal) (kwargs : Kwargs)
    (k : Result PyVal → Prog).

(** What [getattr(cache, name)] can be: the bound method of the backend's
    class, or [MethodType(call_callback(func), cache)]. *)
Inductive Method : Type :=
| Bound (name : string) (body : list PyVal → Kwargs → Prog)
| Inner (alias : string) (callback : CacheOp → L → L) (func : Method).

(** [func.__name__]; [@wraps(func)] copies it to the wrapper. *)
Fixpoint __name__ (m : Method) : string :=
  match m with
  | Bound name _ => name
  | Inner _ _ func => __name__ func
  end.

Record Backend : Type := mkBackend {
  methods : gmap string Method;
  data : D;
}.

(** [django.core.cache.caches], by alias. *)
Local Abbreviation Caches := (gmap string Backend).

(** *** Calling a method *)

Definition Call : Type :=
  list PyVal → Kwargs → Backend * L → option (Result PyVal * (Backend * L)).

Fixpoint run_prog (call : string → Call) (p : Prog) (st : Backend * L)
    : option (Result PyVal * (Backend * L)) :=
  match p with
  | Return r => Some (r, st)
  | Access f k =>
      let '(d, v) := f (data st.1) in
      run_prog call (k v) (mkBackend (methods st.1) d, st.2)
  | CallSelf name args kwargs k =>
      match call name args kwargs st with
      | Some (r, st') => run_prog call (k r) st'
      | None => None
      end
  end.

(** The wrapper that [call_callback(func)] returns, bound to the cache
    [self]; [caller] is the [self] found one frame up. *)
Definition inner (alias : string) (callback : CacheOp → L → L)
    (func_name : string) (func : Call)
    (self : string) (caller : Frame) : Call :=
  λ args kwargs st,
    let is_internal_call := bool_decide (caller = Some self) in
    if negb is_internal_call then
      match args with
      | [] => Some (raise IndexError, st)
      | key_or_keys :: _ =>
          match CacheOp_init pkg alias func_name key_or_keys with
          | inl e => Some (raise e, st)
          | inr cache_op => func args kwargs (st.1, callback cache_op st.2)
          end
      end
    else func args kwargs st.

(** A call of [m] on the cache [self].  The frame of [inner] has the cache as
    its [self], and so has the frame of a method of the backend's class. *)
Fixpoint call_method (enter : (list PyVal → Kwargs → Prog) → Call)
    (self : string) (m : Method) (caller : Frame) : Call :=
  match m with
  | Bound _ body => enter body
  | Inner alias callback func =>
      inner alias callback (__name__ func)
        (call_method enter self func (Some self)) self caller
  end.

(** [fuel] bounds the depth of calls from one backend method into
    another; [None] is a computation that needs more. *)
Fixpoint invoke (fuel : nat) (self : string) (m : Method) (caller : Frame) : Call :=
  call_method
    (λ body args kwargs st,
       match fuel with
       | 0 => None
       | S fuel' =>
           run_prog
             (λ name args' kwargs' st',
                match methods st'.1 !! name with
                | Some m' => invoke fuel' self m' (Some self) args' kwargs' st'
                | None => Some (raise AttributeError, st')
                end)
             (body args kwargs) st
       end)
    self m caller.

(** *** [CacheRecorder] *)

Definition cache_methods : list string :=
  ["add"; "decr"; "delete"; "delete_many"; "get"; "get_many"; "incr"; "set";
   "set_many"].

Record CacheRecorder : Type := mkCacheRecorder {
  recorder_alias : string;
  recorder_callback : CacheOp → L → L;
  orig_methods : option (gmap string Method);
}.

(** [caches[alias]]: the cache object is referred to by its alias. *)
Definition caches_getitem (alias : string) : M Caches string :=
  λ caches,
    match caches !! alias with
    | Some _ => (ok alias, caches)
    | None => (raise InvalidCacheBackendError, caches)
    end.

Definition getattr (cache name : string) : M Caches Method :=
  λ caches,
    match caches !! cache ≫= λ b, methods b !! name with
    | Some m => (ok m, caches)
    | None => (raise AttributeError, caches)
    end.

Definition setattr (cache name : string) (m : Method) : M Caches unit :=
  λ caches,
    (ok tt, alter (λ b, mkBackend (<[name := m]> (methods b)) (data b)) cache caches).

(** [d[name]] on a dict *)
Definition getitem {S} (d : gmap string Method) (name : string) : M S Method :=
  match d !! name with
  | Some m => ret m
  | None => throw KeyError
  end.

(** [{name: getattr(cache, name) for name in names}] *)
Fixpoint dict_of_methods (cache : string) (names : list string)
    (acc : gmap string Method) : M Caches (gmap string Method) :=
  match names with
  | [] => ret acc
  | name :: names' =>
      m <- getattr cache name ;;
      dict_of_methods cache names' (<[name := m]> acc)
  end.

Definition CacheRecorder_enter (self : CacheRecorder) : M Caches CacheRecorder :=
  cache <- caches_getitem (recorder_alias self) ;;
  let call_callback func :=
    Inner (recorder_alias self) (recorder_callback self) func in
  orig <- dict_of_methods cache cache_methods ∅ ;;
  for_each cache_methods (λ name,
    orig_method <- getitem orig name ;;
    setattr cache name (call_callback orig_method)) ;;
  ret (mkCacheRecorder (recorder_alias self) (recorder_callback self) (Some orig)).

Definition CacheRecorder_exit (self : CacheRecorder) (_ : ExcInfo)
    : M Caches CacheRecorder :=
  cache <- caches_getitem (recorder_alias self) ;;
  for_each cache_methods (λ name,
    match orig_methods self with
    | None => throw AttributeError
    | Some orig =>
        orig_method <- getitem orig name ;;
        setattr cache name orig_method
    end) ;;
  ret (mkCacheRecorder (recorder_alias self) (recorder_callback self) None).

(** *** [AllCacheRecorder] *)

Record AllCacheRecorder : Type := mkAllCacheRecorder {
  all_callback : CacheOp → L → L;
  recorders : list CacheRecorder;
}.

(** The body of the loop of [__enter__], threading [self.recorders]. *)
Fixpoint enter_each (callback : CacheOp → L → L) (names : list string)
    (recorders : list CacheRecorder) : M Caches (list CacheRecorder) :=
  match names with
  | [] => ret recorders
  | name :: names' =>
      recorder <- CacheRecorder_enter (mkCacheRecorder name callback None) ;;
      enter_each callback names' (recorders ++ [recorder])
  end.

(** [names] is [sorted_names(settings.CACHES.keys())]: the settings and
    [utils.sorted_names] are outside [src/], so the list is an argument. *)
Definition AllCacheRecorder_enter (self : AllCacheRecorder) (names : list string)
    : M Caches AllCacheRecorder :=
  rs <- enter_each (all_callback self) names [] ;;
  ret (mkAllCacheRecorder (all_callback self) rs).

(** The loop of [__exit__], calling [recorder.__exit__] on each element
    of [rs] from first to last. *)
Definition exit_each (exc : ExcInfo) (rs : list CacheRecorder) : M Caches unit :=
  for_each rs (λ recorder, CacheRecorder_exit recorder exc ;; ret tt).

Definition AllCacheRecorder_exit (self : AllCacheRecorder) (exc : ExcInfo)
    : M Caches AllCacheRecorder :=
  exit_each exc (reverse (recorders self)) ;;
  ret (mkAllCacheRecorder (all_callback self) []).

End Recorder.

Arguments Prog : clear implicits.
Arguments Method : clear implicits.
Arguments Backend : clear implicits.
Arguments Call : clear implicits.
Arguments CacheRecorder : clear implicits.
Arguments AllCacheRecorder : clear implicits.

Abbreviation Caches D L := (gmap string (Backend D L)) (only parsing).

(** The file system, by path. *)
Abbreviation Disk := (gmap string string) (only parsing).

(** ** [api.py]: recording sessions *)

(** One element of [PerformanceRecorder.record], the single-key dict
    [{name: cache_op.key_or_keys}]. *)
Definition Entry : Type := string * KeyOrKeys.
Definition Recording : Type := list Entry.

(** [django.core.cache.DEFAULT_CACHE_ALIAS] *)
Definition DEFAULT_CACHE_ALIAS : string := "default".

(** [PerformanceRecorder.on_cache_op]: the callback every recorder of the
    session gets; it appends to [self.record].  [cache_op.cache_name] is the
    attribute that [django_perf_rec] calls [alias]. *)
Definition on_cache_op (cache_op : CacheOp) (record : Recording) : Recording :=
  let name_parts := ["cache"] in
  let name_parts :=
    if bool_decide (alias cache_op ≠ DEFAULT_CACHE_ALIAS)
    then (name_parts ++ [alias cache_op])%list else name_parts in
  let name_parts := (name_parts ++ [operation cache_op])%list in
  let name := String.concat "|" name_parts in
  (record ++ [(name, key_or_keys cache_op)])%list.

(** What [utils.current_test()] returns. *)
Record TestDetails : Type := mkTestDetails {
  file_path : string;
  class_name : option string;
  test_name : string;
}.

(** [s.endswith(suffix)] and [s[:-n]] *)
Definition endswith (s suffix : string) : bool :=
  Nat.leb (String.length suffix) (String.length s)
  && bool_decide
       (substring (String.length s - String.length suffix) (String.length suffix) s
        = suffix).

Definition drop_last (n : nat) (s : string) : string :=
  substring 0 (String.length s - n) s.

(** The thread-local [record_current]: its attributes [record_name] and
    [counter] are only ever assigned together, so it is either empty or holds
    both. *)
Definition ThreadLocal : Type := option (string * nat).

Section Session.

Context {D : Type}.

(** Modelled from the spec: [yaml.KVFile], the Snapshot Store, is not part
    of [src/].  Per the spec, [load(path)] yields the mapping stored in the
    file and the empty mapping when the file does not exist,
    [get(mapping, name, default)] looks a recording up, and
    [set_and_save(path, name, recording)] sets the entry and rewrites the
    whole file.  The file format is left open: [yaml_load] parses the text of
    a file and [yaml_dump] serializes a mapping. *)
Variable yaml_load : string → gmap string Recording.
Variable yaml_dump : gmap string Recording → string.

Record KVFile : Type := mkKVFile {
  kv_file_name : string;
  kv_data : gmap string Recording;
}.

Definition KVFile_init (file_name : string) : M Disk KVFile :=
  λ disk,
    let data :=
      match disk !! file_name with
      | Some content => yaml_load content
      | None => ∅
      end in
    (ok (mkKVFile file_name data), disk).

Definition KVFile_get (self : KVFile) (key : string) (default : option Recording)
    : option Recording :=
  match kv_data self !! key with
  | Some value => Some value
  | None => default
  end.

Definition KVFile_set_and_save (self : KVFile) (key : string) (value : Recording)
    : M Disk KVFile :=
  λ disk,
    let data := <[key := value]> (kv_data self) in
    (ok (mkKVFile (kv_file_name self) data),
     <[kv_file_name self := yaml_dump data]> disk).

Record World : Type := mkWorld {
  caches : Caches D Recording;
  disk : Disk;
}.

Definition on_caches {A} : M (Caches D Recording) A → M World A :=
  zoom caches (λ c w, mkWorld c (disk w)).
Definition on_disk {A} : M Disk A → M World A :=
  zoom disk (λ d w, mkWorld (caches w) d).

(** The attribute [record] is the field [record_] here, [record] being the
    function of the module. *)
Record PerformanceRecorder : Type := mkPerformanceRecorder {
  file_name : string;
  record_name : string;
  record_ : Recording;
  cache_recorder : AllCacheRecorder D Recording;
  records_file : option KVFile;
}.

(** [PerformanceRecorder.__init__] *)
Definition PerformanceRecorder_init (file_name record_name : string)
    : PerformanceRecorder :=
  mkPerformanceRecorder file_name record_name []
    (mkAllCacheRecorder on_cache_op []) None.

(** [record(file_name=None, record_name=None)]; [test_details] is the value
    of [current_test()]. *)
Definition record (test_details : TestDetails)
    (file_name record_name : option string) (record_current : ThreadLocal)
    : PerformanceRecorder * ThreadLocal :=
  let file_name :=
    match file_name with
    | Some file_name => file_name
    | None =>
        let file_name := file_path test_details in
        if endswith file_name ".py"
        then drop_last (String.length ".py") file_name +:+ ".perf.yml"
        else file_name +:+ ".perf.yml"
    end in
  match record_name with
  | Some record_name =>
      (PerformanceRecorder_init file_name record_name, record_current)
  | None =>
      let record_name :=
        match class_name test_details with
        | Some class_ =>
            if bool_decide (class_ ≠ "")
            then class_ +:+ "." +:+ test_name test_details
            else test_name test_details
        | None => test_name test_details
        end in
      match record_current with
      | Some (current, counter) =>
          if bool_decide (current = record_name) then
            let counter := counter + 1 in
            (PerformanceRecorder_init file_name
               (record_name +:+ "." +:+ pretty counter),
             Some (current, counter))
          else
            (PerformanceRecorder_init file_name record_name, Some (record_name, 1))
      | None =>
          (PerformanceRecorder_init file_name record_name, Some (record_name, 1))
      end
  end.

(** [names] is [sorted_names(settings.CACHES.keys())], see
    [AllCacheRecorder_enter]. *)
Definition PerformanceRecorder_enter (self : PerformanceRecorder)
    (names : list string) : M World PerformanceRecorder :=
  cache_recorder' <- on_caches (AllCacheRecorder_enter (cache_recorder self) names) ;;
  (* load_recordings *)
  records_file' <- on_disk (KVFile_init (file_name self)) ;;
  ret (mkPerformanceRecorder (file_name self) (record_name self) (record_ self)
         cache_recorder' (Some records_file')).

Definition save_or_assert (self : PerformanceRecorder) : M World PerformanceRecorder :=
  match records_file self with
  | None => throw AttributeError
  | Some records_file =>
      let orig_record := KVFile_get records_file (record_name self) None in
      match orig_record with
      | Some orig_record =>
          if bool_decide (record_ self = orig_record) then ret tt
          else throw (AssertionError
                        ("Performance record did not match for " +:+ record_name self))
      | None => ret tt
      end ;;
      records_file' <-
        on_disk (KVFile_set_and_save records_file (record_name self) (record_ self)) ;;
      ret (mkPerformanceRecorder (file_name self) (record_name self) (record_ self)
             (cache_recorder self) (Some records_file'))
  end.

Definition PerformanceRecorder_exit (self : PerformanceRecorder) (exc : ExcInfo)
    : M World PerformanceRecorder :=
  cache_recorder' <- on_caches (AllCacheRecorder_exit (cache_recorder self) exc) ;;
  let self :=
    mkPerformanceRecorder (file_name self) (record_name self) (record_ self)
      cache_recorder' (records_file self) in
  match exc with
  | None => save_or_assert self
  | Some _ => ret self
  end.

End Session.

(** The default record name [record] derives from the running test. *)
Definition default_record_name (test_details : TestDetails) : string :=
  match class_name test_details with
  | Some class_ =>
      if bool_decide (class_ ≠ "")
      then class_ +:+ "." +:+ test_name test_details
      else test_name test_details
  | None => test_name test_details
  end.

(** The names of the sessions that successive calls [record()] open, one per
    element of [tests], on one thread. *)
Fixpoint session_names {D : Type} (tests : list TestDetails)
    (record_current : ThreadLocal) : list string :=
  match tests with
  | [] => []
  | test_details :: tests' =>
      let '(session, record_current') :=
        record (D := D) test_details None None record_current in
      record_name session :: session_names (D := D) tests' record_current'
  end.

(** The rules of [VARIABLE_RES] before the last one, [\d+]: the session
    keys, the long hashes and the UUIDs. *)
Definition hash_rules (pkg : Package) : list regex :=
  removelast (VARIABLE_RES pkg).

(** Whether a decimal digit occurs in [s]. *)
Fixpoint has_digit (s : string) : bool :=
  match s with
  | EmptyString => false
  | String c s' => in_class digit c || has_digit s'
  end.

(** The name with the counter [i] appended. *)
Definition suffixed (name : string) (i : nat) : string :=
  name +:+ "." +:+ pretty i.

(** ** Test code calling a cache *)

(** A call [caches[alias].name(...)] with positional arguments [args] and
    keyword arguments [kwargs], from a frame whose [self] is [caller]. *)
Definition call_cache {D L : Type} (pkg : Package) (fuel : nat)
    (alias name : string) (caller : Frame) (args : list PyVal) (kwargs : Kwargs)
    (w : Caches D L * L) : option (Result PyVal * (Caches D L * L)) :=
  match w.1 !! alias with
  | None => Some (raise InvalidCacheBackendError, w)
  | Some cache =>
      match methods cache !! name with
      | None => Some (raise AttributeError, w)
      | Some m =>
          match invoke pkg fuel alias m caller args kwargs (cache, w.2) with
          | Some (r, (cache', l)) => Some (r, (<[alias := cache']> w.1, l))
          | None => None
          end
      end
  end.

(** The code under test calling [caches[alias].name(...)] while the session
    is open: the callbacks are [self.on_cache_op], so the events go to
    [self.record]. *)
Definition session_call {D : Type} (pkg : Package) (fuel : nat)
    (alias name : string) (args : list PyVal) (kwargs : Kwargs)
    (self : PerformanceRecorder (D := D)) (w : World (D := D))
    : option (Result PyVal * (PerformanceRecorder (D := D) * World (D := D))) :=
  match call_cache pkg fuel alias name None args kwargs (caches w, record_ self) with
  | Some (r, (caches', record')) =>
      Some (r, (mkPerformanceRecorder (file_name self) (record_name self) record'
                  (cache_recorder self) (records_file self),
                mkWorld caches' (disk w)))
  | None => None
  end.

(** The method under all wrappers. *)
Fixpoint unwrapped {D L : Type} (m : Method D L) : Method D L :=
  match m with
  | Bound name body => Bound name body
  | Inner _ _ func => unwrapped func
  end.

(** Two states of a backend that differ in instrumentation only. *)
Definition same_backend {D L : Type} (b1 b2 : Backend D L) : Prop :=
  data b1 = data b2
  ∧ ∀ name, unwrapped <$> methods b1 !! name = unwrapped <$> methods b2 !! name.

(** Two runs with the same outcome: both need more fuel, or both end with
    the same return value or exception and leave the same backend store. *)
Definition same_outcome {D L : Type}
    (o1 o2 : option (Result PyVal * (Backend D L * L))) : Prop :=
  match o1, o2 with
  | Some (r1, (b1, _)), Some (r2, (b2, _)) => r1 = r2 ∧ same_backend b1 b2
  | None, None => True
  | _, _ => False
  end.

(** The first positional argument is a string key, or a list, tuple or dict
    of string keys. *)
Definition string_keys (key_or_keys : PyVal) : bool :=
  isinstance_str key_or_keys
  || (isinstance_Mapping_Sequence key_or_keys
      && forallb isinstance_str (py_iter key_or_keys)).

(** A call the wrapper on the cache [self] lets through: it comes from the
    backend itself, or its first positional argument is made of string
    keys. *)
Definition passes (self : string) (caller : Frame) (args : list PyVal) : Prop :=
  caller = Some self ∨ ∃ v rest, args = v :: rest ∧ string_keys v = true.

(** The backend has all nine methods. *)
Definition instrumentable {D L : Type} (b : Backend D L) : Prop :=
  ∀ name, name ∈ cache_methods → is_Some (methods b !! name).

(** Every alias of [names] is configured with an instrumentable backend. *)
Definition configured {D L : Type} (names : list string) (caches : Caches D L) : Prop :=
  ∀ a, a ∈ names → ∃ b, caches !! a = Some b ∧ instrumentable b.

(** ** A sample backend

    A dictionary-backed cache in the manner of django's [BaseCache]: [add],
    [incr], [decr] and the bulk methods are written in terms of the
    backend's own [get], [set] and [delete], and keys are turned into
    strings as [make_key] does, so integers are accepted as keys. *)
Module Sample.

Definition Store : Type := gmap string PyVal.

Definition arg (i : nat) (name : string) (args : list PyVal) (kwargs : Kwargs)
    : option PyVal :=
  match args !! i with
  | Some v => Some v
  | None => snd <$> list_find (λ kv, kv.1 = name) kwargs ≫= Some ∘ snd
  end.

Definition make_key (key : PyVal) : option string :=
  match key with
  | PyStr s => Some s
  | PyInt z => Some (pretty z)
  | _ => None
  end.

Definition get_ : list PyVal → Kwargs → Prog Store := λ args kwargs,
  match arg 0 "key" args kwargs ≫= make_key with
  | Some k => Access (λ d, (d, default PyNone (d !! k))) (λ v, Return (ok v))
  | None => Return (raise TypeError)
  end.

Definition set_ : list PyVal → Kwargs → Prog Store := λ args kwargs,
  match arg 0 "key" args kwargs ≫= make_key, arg 1 "value" args kwargs with
  | Some k, Some v => Access (λ d, (<[k := v]> d, PyNone)) (λ v, Return (ok v))
  | _, _ => Return (raise TypeError)
  end.

Definition delete_ : list PyVal → Kwargs → Prog Store := λ args kwargs,
  match arg 0 "key" args kwargs ≫= make_key with
  | Some k => Access (λ d, (delete k d, PyNone)) (λ v, Return (ok v))
  | None => Return (raise TypeError)
  end.

(** [add]: [if self.get(key) is None: self.set(key, value)] *)
Definition add_ : list PyVal → Kwargs → Prog Store := λ args kwargs,
  match arg 0 "key" args kwargs, arg 1 "value" args kwargs with
  | Some key, Some value =>
      CallSelf "get" [key] [] (λ r,
        match r with
        | inr PyNone => CallSelf "set" [key; value] [] (λ r',
            match r' with
            | inr _ => Return (ok (PyInt 1))
            | inl e => Return (raise e)
            end)
        | inr _ => Return (ok (PyInt 0))
        | inl e => Return (raise e)
        end)
  | _, _ => Return (raise TypeError)
  end.

(** [incr]: [self.get], then [self.set] of the sum *)
Definition incr_ : list PyVal → Kwargs → Prog Store := λ args kwargs,
  match arg 0 "key" args kwargs with
  | Some key =>
      let delta :=
        match arg 1 "delta" args kwargs with Some (PyInt z) => z | _ => 1%Z end in
      CallSelf "get" [key] [] (λ r,
        match r with
        | inr (PyInt z) =>
            let new_value := PyInt (z + delta) in
            CallSelf "set" [key; new_value] [] (λ r',
              match r' with
              | inr _ => Return (ok new_value)
              | inl e => Return (raise e)
              end)
        | inr _ => Return (raise (ValueError "Key not found"))
        | inl e => Return (raise e)
        end)
  | None => Return (raise TypeError)
  end.

(** [decr]: [return self.incr(key, -delta)] *)
Definition decr_ : list PyVal → Kwargs → Prog Store := λ args kwargs,
  match arg 0 "key" args kwargs with
  | Some key =>
      let delta :=
        match arg 1 "delta" args kwargs with Some (PyInt z) => z | _ => 1%Z end in
      CallSelf "incr" [key; PyInt (- delta)] [] Return
  | None => Return (raise TypeError)
  end.

(** [get_many]: [self.get(k)] for each key, collecting the hits *)
Fixpoint get_many_loop (keys : list PyVal) (found : list (PyVal * PyVal))
    : Prog Store :=
  match keys with
  | [] => Return (ok (PyDict found))
  | k :: keys' =>
      CallSelf "get" [k] [] (λ r,
        match r with
        | inr PyNone => get_many_loop keys' found
        | inr v => get_many_loop keys' (found ++ [(k, v)])
        | inl e => Return (raise e)
        end)
  end.

Definition get_many_ : list PyVal → Kwargs → Prog Store := λ args kwargs,
  match arg 0 "keys" args kwargs with
  | Some keys => get_many_loop (py_iter keys) []
  | None => Return (raise TypeError)
  end.

Fixpoint set_many_loop (items : list (PyVal * PyVal)) : Prog Store :=
  match items with
  | [] => Return (ok (PyList []))
  | (k, v) :: items' =>
      CallSelf "set" [k; v] [] (λ r,
        match r with
        | inr _ => set_many_loop items'
        | inl e => Return (raise e)
        end)
  end.

Definition set_many_ : list PyVal → Kwargs → Prog Store := λ args kwargs,
  match arg 0 "data" args kwargs with
  | Some (PyDict items) => set_many_loop items
  | _ => Return (raise TypeError)
  end.

Fixpoint delete_many_loop (keys : list PyVal) : Prog Store :=
  match keys with
  | [] => Return (ok PyNone)
  | k :: keys' =>
      CallSelf "delete" [k] [] (λ r,
        match r with
        | inr _ => delete_many_loop keys'
        | inl e => Return (raise e)
        end)
  end.

Definition delete_many_ : list PyVal → Kwargs → Prog Store := λ args kwargs,
  match arg 0 "keys" args kwargs with
  | Some keys => delete_many_loop (py_iter keys)
  | None => Return (raise TypeError)
  end.

Definition class_methods {L : Type} : gmap string (Method Store L) :=
  list_to_map
    [ ("add", Bound "add" add_); ("decr", Bound "decr" decr_);
      ("delete", Bound "delete" delete_);
      ("delete_many", Bound "delete_many" delete_many_);
      ("get", Bound "get" get_); ("get_many", Bound "get_many" get_many_);
      ("incr", Bound "incr" incr_); ("set", Bound "set" set_);
      ("set_many", Bound "set_many" set_many_) ].

(** A fresh instance holding [store]. *)
Definition backend {L : Type} (store : Store) : Backend Store L :=
  mkBackend class_methods store.

(** A recorder callback that keeps the events in arrival order. *)
Definition append (cache_op : CacheOp) (events : list CacheOp) : list CacheOp :=
  events ++ [cache_op].

(** A snapshot file with one recording, in a toy format that knows this
    file only. *)
Definition test_details : TestDetails :=
  mkTestDetails "tests/test_api.py" (Some "ApiTests") "test_get".

Definition stored : Recording := [("cache|get", Key "user:#")].

Definition text : string := "ApiTests.test_get: [{cache|get: user:#}]".

Definition yaml_load (content : string) : gmap string Recording :=
  if decide (content = text) then {["ApiTests.test_get" := stored]} else ∅.

Definition yaml_dump (mapping : gmap string Recording) : string :=
  if decide (mapping = {["ApiTests.test_get" := stored]}) then text else "{}".

Definition world : World (D := Store) :=
  mkWorld {["default" := backend ∅]} {["tests/test_api.perf.yml" := text]}.

(** The session of [test_get] after [__enter__] and one call of the method
    [name] with [args]. *)
Definition after_call (name : string) (args : list PyVal)
    : option (PerformanceRecorder (D := Store) * World (D := Store)) :=
  match PerformanceRecorder_enter yaml_load
          (record test_details None None None).1 ["default"] world with
  | (inr self, w) =>
      match session_call django_performance_recorder 3 "default" name args [] self w with
      | Some (inr _, sw) => Some sw
      | _ => None
      end
  | _ => None
  end.

End Sample.

(** The least number of characters a match of [p] consumes. *)
Definition min_len (p : regex) : nat :=
  sum_list_with
    (λ node, match node with
             | Lookbehind _ | WordBoundary => 0
             | Char _ | OneOrMore _ => 1
             | Repeat _ n => n
             end) p.

(** The name [on_cache_op] records an operation of the cache [alias]
    under. *)
Definition event_name (alias operation : string) : string :=
  if bool_decide (alias = DEFAULT_CACHE_ALIAS)
  then "cache|" +:+ operation
  else "cache|" +:+ alias +:+ "|" +:+ operation.

(** An outcome that leaves the method table of [b] and the recording [l]
    as they were. *)
Definition keeps {D L : Type} (b : Backend D L) (l : L)
    (o : option (Result PyVal * (Backend D L * L))) : Prop :=
  match o with
  | Some (_, (b', l')) => methods b' = methods b ∧ l' = l
  | None => True
  end.

(** * Properties *)

(** ** Worked examples *)

Example clean_key_int :
  clean_key django_perf_rec "user:12345:profile" = "user:#:profile".
Proof. vm_compute. reflexivity. Qed.

Example clean_key_uuid :
  clean_key django_perf_rec "sess:550e8400-e29b-41d4-a716-446655440000" = "sess:#".
Proof. vm_compute. reflexivity. Qed.

Example clean_key_hash :
  clean_key django_perf_rec "tpl.0123456789abcdef0123456789abcdef.x" = "tpl.#.x".
Proof. vm_compute. reflexivity. Qed.

Example clean_key_session :
  clean_key django_perf_rec
    "django.contrib.sessions.cachezzzzzzzzzzzzzzzzzzzzzzzzzzzzzzzz"
  = "django.contrib.sessions.cache#".
Proof. vm_compute. reflexivity. Qed.

Example CacheOp_bulk :
  CacheOp_init django_perf_rec "default" "get_many" (PyList [PyStr "b"; PyStr "a:1"])
  = ok (mkCacheOp "default" "get_many" (Keys ["a:#"; "b"])).
Proof. vm_compute. reflexivity. Qed.

Example record_file_name :
  file_name (fst (record (D := unit) (mkTestDetails "tests/test_api.py" (Some "ApiTests") "test_get")
                    None None None))
  = "tests/test_api.perf.yml".
Proof. vm_compute. reflexivity. Qed.

Example session_names_twice :
  session_names (D := unit)
    (replicate 3 (mkTestDetails "t.py" (Some "ApiTests") "test_get")) None
  = ["ApiTests.test_get"; "ApiTests.test_get.2"; "ApiTests.test_get.3"].
Proof. vm_compute. reflexivity. Qed.

(** ** Operation events *)

Lemma map_result_clean_key pkg (vs : list PyVal) :
  map_result (clean_key_py pkg) vs
  = if forallb isinstance_str vs
    then ok (omap (λ v, match v with PyStr s => Some (clean_key pkg s) | _ => None end) vs)
    else raise TypeError.
Proof.
  induction vs as [|v vs IH]; [done|].
  cbn [map_result forallb].
  destruct v; cbn; try done.
  rewrite IH. by destruct (forallb isinstance_str vs).
Qed.

Lemma forallb_Permutation {A} (f : A → bool) (l1 l2 : list A) :
  l1 ≡ₚ l2 → forallb f l1 = forallb f l2.
Proof.
  induction 1 as [|x l1 l2 _ IH|x y l|l1 l2 l3 _ IH1 _ IH2]; cbn.
  - done.
  - by rewrite IH.
  - destruct (f x), (f y); done.
  - congruence.
Qed.

Lemma sorted_Permutation (ks1 ks2 : list string) :
  ks1 ≡ₚ ks2 → sorted ks1 = sorted ks2.
Proof.
  intros Hp. unfold sorted.
  apply (StronglySorted_unique String.le).
  - apply StronglySorted_merge_sort; apply _.
  - apply StronglySorted_merge_sort; apply _.
  - by rewrite !merge_sort_Permutation.
Qed.

Lemma sorted_StronglySorted (ks : list string) :
  StronglySorted String.le (sorted ks).
Proof. apply StronglySorted_merge_sort; apply _. Qed.

(** C9: a string key is one key.  The string case of [CacheOp.__init__] is
    tested first, so although a string is a sequence the event stores the
    normalized string itself and never a list of keys. *)
Theorem string_key_is_single_key pkg (a op s : string) :
  isinstance_Mapping_Sequence (PyStr s) = true
  ∧ CacheOp_init pkg a op (PyStr s) = ok (mkCacheOp a op (Key (clean_key pkg s)))
  ∧ ∀ e ks, CacheOp_init pkg a op (PyStr s) = ok e → key_or_keys e ≠ Keys ks.
Proof.
  split_and!; [done..|].
  intros e ks [= <-]. done.
Qed.

(** C5: the event built from a key collection does not depend on the order
    of its keys.  Two collections (lists, tuples, or dicts through their
    keys) that are permutations of each other give the same result, events
    built from them are equal under [CacheOp.__eq__], and the keys of the
    event are stored sorted. *)
Theorem bulk_keys_order_independent pkg (a op : string) (c1 c2 : PyVal) :
  isinstance_str c1 = false → isinstance_str c2 = false →
  isinstance_Mapping_Sequence c1 = true → isinstance_Mapping_Sequence c2 = true →
  py_iter c1 ≡ₚ py_iter c2 →
  CacheOp_init pkg a op c1 = CacheOp_init pkg a op c2
  ∧ ∀ e1 e2, CacheOp_init pkg a op c1 = ok e1 → CacheOp_init pkg a op c2 = ok e2 →
      CacheOp_eq e1 e2 = true
      ∧ ∃ ks, key_or_keys e1 = Keys ks ∧ StronglySorted String.le ks.
Proof.
  intros Hs1 Hs2 Hc1 Hc2 Hp.
  assert (Hinit : ∀ c, isinstance_str c = false → isinstance_Mapping_Sequence c = true →
            CacheOp_init pkg a op c
            = Result_bind (map_result (clean_key_py pkg) (py_iter c))
                (λ ks, ok (mkCacheOp a op (Keys (sorted ks))))).
  { intros c Hs Hc. destruct c; try done. }
  assert (Heq : CacheOp_init pkg a op c1 = CacheOp_init pkg a op c2).
  { rewrite !Hinit by done. rewrite !map_result_clean_key.
    rewrite (forallb_Permutation _ _ _ Hp).
    destruct (forallb isinstance_str (py_iter c2)); [|done].
    cbn. do 3 f_equal. apply sorted_Permutation. by rewrite Hp. }
  split; [done|].
  intros e1 e2 H1 H2. rewrite Heq, H2 in H1. injection H1 as ->.
  split.
  - unfold CacheOp_eq. by rewrite !bool_decide_eq_true_2.
  - rewrite Hinit, map_result_clean_key in H2 by done.
    destruct (forallb isinstance_str (py_iter c2)); [|done].
    injection H2 as <-. eexists. split; [done|]. apply sorted_StronglySorted.
Qed.

Lemma bulk_keys_order_independent_witness :
  let c1 := PyList [PyStr "b"; PyStr "a"] in
  let c2 := PyList [PyStr "a"; PyStr "b"] in
  CacheOp_init django_perf_rec "default" "get_many" c1
  = CacheOp_init django_perf_rec "default" "get_many" c2
  ∧ ∀ e1 e2,
      CacheOp_init django_perf_rec "default" "get_many" c1 = ok e1 →
      CacheOp_init django_perf_rec "default" "get_many" c2 = ok e2 →
      CacheOp_eq e1 e2 = true
      ∧ ∃ ks, key_or_keys e1 = Keys ks ∧ StronglySorted String.le ks.
Proof.
  exact (bulk_keys_order_independent django_perf_rec "default" "get_many"
           (PyList [PyStr "b"; PyStr "a"]) (PyList [PyStr "a"; PyStr "b"])
           eq_refl eq_refl eq_refl eq_refl (perm_swap _ _ _)).
Defined.

(** ** The instrumented method *)

Section InnerFacts.

Context {D L : Type}.
Variable pkg : Package.

Implicit Types (m func : Method D L) (st : Backend D L * L) (caller : Frame).

Lemma invoke_Inner fuel self a cb func caller args kwargs st :
  invoke pkg fuel self (Inner a cb func) caller args kwargs st
  = inner pkg a cb (__name__ func) (invoke pkg fuel self func (Some self))
      self caller args kwargs st.
Proof. by destruct fuel. Qed.

Lemma CacheOp_init_ValueError (a op : string) (v : PyVal) :
  (∃ msg, CacheOp_init pkg a op v = raise (ValueError msg))
  ↔ isinstance_str v = false ∧ isinstance_Mapping_Sequence v = false.
Proof.
  split.
  - intros [msg H]. destruct v; cbn in H; try done;
      rewrite map_result_clean_key in H;
      by destruct (forallb _ _).
  - intros [Hs Hc]. destruct v; try done; by eexists.
Qed.

End InnerFacts.

(** C7: [CacheOp.__init__] raises [ValueError] exactly when [key_or_keys] is
    neither a string nor a mapping or sequence; in a call from outside the
    backend the instrumented method then raises that error with the backend
    and the recording untouched, whatever the original method [func] is:
    [func] has not been called. *)
Theorem invalid_key_shape {D L : Type} pkg (fuel : nat) (self a : string)
    (cb : CacheOp → L → L) (func : Method D L) (caller : Frame)
    (v : PyVal) (rest : list PyVal) (kwargs : Kwargs) (st : Backend D L * L) :
  ((∃ msg, CacheOp_init pkg a (__name__ func) v = raise (ValueError msg))
   ↔ isinstance_str v = false ∧ isinstance_Mapping_Sequence v = false)
  ∧ (caller ≠ Some self →
     isinstance_str v = false → isinstance_Mapping_Sequence v = false →
     invoke pkg fuel self (Inner a cb func) caller (v :: rest) kwargs st
     = Some (raise (ValueError "key_or_keys must be a string, mapping, or sequence"),
             st)).
Proof.
  split; [apply CacheOp_init_ValueError|].
  intros Hext Hs Hc.
  rewrite invoke_Inner. unfold inner.
  rewrite bool_decide_eq_false_2 by done. cbn [negb].
  by destruct v.
Qed.

(** C10: called from outside the backend with no positional argument, the
    instrumented method raises [IndexError] at [args[0]], with the backend
    and the recording untouched, whatever the original method [func] is and
    whatever keyword arguments are passed. *)
Theorem no_positional_argument {D L : Type} pkg (fuel : nat) (self a : string)
    (cb : CacheOp → L → L) (func : Method D L) (caller : Frame)
    (kwargs : Kwargs) (st : Backend D L * L) :
  caller ≠ Some self →
  invoke pkg fuel self (Inner a cb func) caller [] kwargs st
  = Some (raise IndexError, st).
Proof.
  intros Hext. rewrite invoke_Inner. unfold inner.
  by rewrite bool_decide_eq_false_2.
Qed.

(** ** The key normalizer *)

Lemma VARIABLE_RES_split pkg : VARIABLE_RES pkg = (hash_rules pkg ++ [integers])%list.
Proof. by destruct pkg. Qed.

Lemma clean_key_split pkg (k : string) :
  clean_key pkg k = re_sub integers "#" (apply_rules (hash_rules pkg) k).
Proof.
  unfold clean_key, apply_rules. by rewrite VARIABLE_RES_split, foldl_app.
Qed.

Lemma match_integers_digit (before s : string) (c : ascii) :
  in_class digit c = true →
  ∃ k, match_here integers before (String c s) = Some (S k).
Proof.
  intros Hc. cbn [match_here integers]. rewrite Hc.
  match goal with |- context [match ?x with Some _ => _ | None => _ end] =>
    destruct x end; eauto.
Qed.

Lemma match_integers_other (before s : string) (c : ascii) :
  in_class digit c = false → match_here integers before (String c s) = None.
Proof. intros Hc. cbn [match_here integers]. by rewrite Hc. Qed.

Lemma has_digit_hash (s : string) : has_digit ("#" +:+ s) = has_digit s.
Proof. reflexivity. Qed.

(** The last rule leaves no digit behind. *)
Lemma sub_integers_no_digit (before : string) (skip : nat) (s : string) :
  has_digit (sub_scan integers "#" before skip s) = false.
Proof.
  revert before skip. induction s as [|c s IH]; intros before skip; [done|].
  cbn [sub_scan]. destruct skip as [|skip]; [|apply IH].
  destruct (in_class digit c) eqn:Hc.
  - destruct (match_integers_digit before s c Hc) as [k ->].
    rewrite has_digit_hash. apply IH.
  - rewrite (match_integers_other before s c Hc). cbn [has_digit].
    by rewrite Hc, IH.
Qed.

(** The last rule changes nothing in a string without digits. *)
Lemma sub_integers_id (before s : string) :
  has_digit s = false → sub_scan integers "#" before 0 s = s.
Proof.
  revert before. induction s as [|c s IH]; intros before Hs; [done|].
  cbn [has_digit] in Hs. apply orb_false_iff in Hs as [Hc Hs].
  cbn [sub_scan]. rewrite (match_integers_other before s c Hc).
  by rewrite IH.
Qed.

(** Replacing by ["#"] introduces no digit, whatever the pattern. *)
Lemma sub_hash_no_digit (p : regex) (before : string) (skip : nat) (s : string) :
  has_digit s = false → has_digit (sub_scan p "#" before skip s) = false.
Proof.
  revert before skip. induction s as [|c s IH]; intros before skip Hs; [done|].
  cbn [has_digit] in Hs. apply orb_false_iff in Hs as [Hc Hs].
  cbn [sub_scan]. destruct skip as [|skip]; [|by apply IH].
  destruct (match_here p before (String c s)) as [[|k]|];
    rewrite ?has_digit_hash; cbn [has_digit]; rewrite ?Hc; by apply IH.
Qed.

Lemma apply_rules_no_digit (rules : list regex) (s : string) :
  has_digit s = false → has_digit (apply_rules rules s) = false.
Proof.
  revert s. induction rules as [|p rules IH]; intros s Hs; [done|].
  cbn. apply IH. by apply sub_hash_no_digit.
Qed.

Lemma clean_key_no_digit pkg (k : string) : has_digit (clean_key pkg k) = false.
Proof. rewrite clean_key_split. apply sub_integers_no_digit. Qed.

(** C6, refuted as stated: replacing the digit of ["1aaa...a"] (a digit and
    32 letters [a]) by ["#"] puts a word boundary before the 32 letters, which
    the long-hash rule then replaces on the second pass. *)
Lemma clean_key_not_idempotent :
  let k := "1aaaaaaaaaaaaaaaaaaaaaaaaaaaaaaaa" in
  clean_key django_perf_rec k = "#aaaaaaaaaaaaaaaaaaaaaaaaaaaaaaaa"
  ∧ clean_key django_perf_rec (clean_key django_perf_rec k) = "##"
  ∧ clean_key django_perf_rec (clean_key django_perf_rec k)
    ≠ clean_key django_perf_rec k.
Proof. vm_compute. split_and!; [done..|]. discriminate. Qed.

(** C6, amended: a normalized key never contains a decimal digit, and the
    normalizer is idempotent at [k] exactly when the rules before the digit
    rule (session keys, long hashes, UUIDs) leave [clean_key k] unchanged. *)
Theorem clean_key_idempotent_iff pkg (k : string) :
  has_digit (clean_key pkg k) = false
  ∧ (clean_key pkg (clean_key pkg k) = clean_key pkg k
     ↔ apply_rules (hash_rules pkg) (clean_key pkg k) = clean_key pkg k).
Proof.
  split; [apply clean_key_no_digit|].
  rewrite (clean_key_split pkg (clean_key pkg k)). unfold re_sub.
  rewrite sub_integers_id
    by (apply apply_rules_no_digit, clean_key_no_digit).
  done.
Qed.

Lemma clean_key_idempotent_iff_witness :
  let k := "user:12345:profile" in
  clean_key django_perf_rec (clean_key django_perf_rec k)
  = clean_key django_perf_rec k.
Proof.
  apply (proj2 (clean_key_idempotent_iff django_perf_rec "user:12345:profile")).
  vm_compute. reflexivity.
Defined.

(** ** Session names *)

Section SessionNames.

Context {D : Type}.

Lemma append_empty_r (s : string) : s +:+ "" = s.
Proof.
  induction s as [|c s IH]; [done|].
  change (String c (s +:+ "") = String c s). by rewrite IH.
Qed.

Lemma append_suffix_ne (s t : string) : s ≠ s +:+ "." +:+ t.
Proof.
  intros H. rewrite <-(append_empty_r s) in H at 1.
  by apply (inj (String.app s)) in H.
Qed.

Global Instance suffixed_inj name : Inj (=) (=) (suffixed name).
Proof.
  intros i j H. unfold suffixed in H.
  apply (inj (String.app name)), (inj (String.app ".")) in H.
  by apply (inj pretty) in H.
Qed.

Lemma record_name_record (t : TestDetails) (record_current : ThreadLocal) :
  record (D := D) t None None record_current
  = let name := default_record_name t in
    match record_current with
    | Some (current, counter) =>
        if bool_decide (current = name)
        then (PerformanceRecorder_init
                (file_name (fst (record (D := D) t None None None)))
                (suffixed name (counter + 1)),
              Some (current, counter + 1))
        else (PerformanceRecorder_init
                (file_name (fst (record (D := D) t None None None))) name,
              Some (name, 1))
    | None =>
        (PerformanceRecorder_init
           (file_name (fst (record (D := D) t None None None))) name,
         Some (name, 1))
    end.
Proof.
  unfold record, default_record_name, suffixed.
  destruct record_current as [[current counter]|]; [|done].
  by case_bool_decide.
Qed.

Lemma session_names_repeat (t : TestDetails) (n counter : nat) :
  session_names (D := D) (replicate n t) (Some (default_record_name t, counter))
  = suffixed (default_record_name t) <$> seq (counter + 1) n.
Proof.
  revert counter. induction n as [|n IH]; intros counter; [done|].
  cbn [replicate session_names]. rewrite record_name_record. cbn zeta.
  rewrite bool_decide_eq_true_2 by done.
  cbn [record_name PerformanceRecorder_init seq fmap list_fmap].
  f_equal. rewrite IH. by replace (counter + 1 + 1) with (S (counter + 1)) by lia.
Qed.

Lemma session_names_first (t : TestDetails) (n : nat) (record_current : ThreadLocal) :
  (∀ current counter,
     record_current = Some (current, counter) → current ≠ default_record_name t) →
  session_names (D := D) (replicate (S n) t) record_current
  = default_record_name t :: (suffixed (default_record_name t) <$> seq 2 n).
Proof.
  intros Hne. cbn [replicate session_names]. rewrite record_name_record. cbn zeta.
  destruct record_current as [[current counter]|].
  - rewrite bool_decide_eq_false_2 by eauto.
    cbn [record_name PerformanceRecorder_init]. f_equal.
    apply (session_names_repeat t n 1).
  - cbn [record_name PerformanceRecorder_init]. f_equal.
    apply (session_names_repeat t n 1).
Qed.

End SessionNames.

(** C8, refuted as stated: three sessions opened in the tests [test_a],
    [test_b], [test_a] of one class.  The third session has the derived name
    of the first but is not its immediate successor, so the thread-local
    counter has been reset: it gets no suffix and two sessions of the run
    share a name. *)
Lemma session_names_collide :
  let test_a := mkTestDetails "tests/test_api.py" (Some "ApiTests") "test_a" in
  let test_b := mkTestDetails "tests/test_api.py" (Some "ApiTests") "test_b" in
  let names := session_names (D := unit) [test_a; test_b; test_a] None in
  names = ["ApiTests.test_a"; "ApiTests.test_b"; "ApiTests.test_a"]
  ∧ ¬ NoDup names.
Proof.
  cbv zeta.
  assert (H : session_names (D := unit)
                [mkTestDetails "tests/test_api.py" (Some "ApiTests") "test_a";
                 mkTestDetails "tests/test_api.py" (Some "ApiTests") "test_b";
                 mkTestDetails "tests/test_api.py" (Some "ApiTests") "test_a"] None
              = ["ApiTests.test_a"; "ApiTests.test_b"; "ApiTests.test_a"])
    by (vm_compute; reflexivity).
  split; [exact H|]. rewrite H.
  intros Hnd. apply NoDup_cons in Hnd as [Hnotin _].
  apply Hnotin. set_solver.
Qed.

(** C8, amended: sessions opened one after the other with the same derived
    name, with no session of another derived name in between, are named
    [name], [name.2], [name.3], ... and these names are pairwise distinct.
    The hypothesis says that the thread-local does not already hold [name]
    when the first of them opens. *)
Theorem consecutive_sessions_suffixed {D : Type} (t : TestDetails) (n : nat)
    (record_current : ThreadLocal) :
  (∀ current counter,
     record_current = Some (current, counter) → current ≠ default_record_name t) →
  let name := default_record_name t in
  session_names (D := D) (replicate (S n) t) record_current
  = name :: ((λ i, name +:+ "." +:+ pretty i) <$> seq 2 n)
  ∧ NoDup (session_names (D := D) (replicate (S n) t) record_current).
Proof.
  intros Hne name.
  pose proof (session_names_first (D := D) t n record_current Hne) as Hs.
  split; [exact Hs|]. rewrite Hs.
  apply NoDup_cons. split.
  - intros [i [Hi _]]%list_elem_of_fmap. by apply append_suffix_ne in Hi.
  - apply (NoDup_fmap_2 (suffixed (default_record_name t))), NoDup_seq.
Qed.

Lemma consecutive_sessions_suffixed_witness :
  let t := mkTestDetails "tests/test_api.py" (Some "ApiTests") "test_get" in
  session_names (D := unit) (replicate 3 t) None
  = ["ApiTests.test_get"; "ApiTests.test_get.2"; "ApiTests.test_get.3"]
  ∧ NoDup (session_names (D := unit) (replicate 3 t) None).
Proof.
  exact (consecutive_sessions_suffixed (D := unit)
           (mkTestDetails "tests/test_api.py" (Some "ApiTests") "test_get") 2 None
           (λ current counter H, match H with end)).
Defined.

(** ** Transparency of the instrumentation *)

Section Transparency.

Context {D L : Type}.
Variable pkg : Package.
Variable self : string.

Implicit Types (m func : Method D L) (b : Backend D L) (l : L) (caller : Frame).

Lemma CacheOp_init_string_keys (a op : string) (v : PyVal) :
  string_keys v = true → ∃ cache_op, CacheOp_init pkg a op v = ok cache_op.
Proof.
  unfold string_keys. intros Hv.
  destruct v; cbn in Hv; try done; try (by eexists);
    cbn; rewrite map_result_clean_key; cbn in *; rewrite Hv; by eexists.
Qed.

Lemma invoke_Bound fuel name body caller caller' args kwargs (st : Backend D L * L) :
  invoke pkg fuel self (Bound name body) caller args kwargs st
  = invoke pkg fuel self (Bound name body) caller' args kwargs st.
Proof. by destruct fuel. Qed.

Lemma unwrapped_Bound m : ∃ name body, unwrapped m = Bound name body.
Proof. induction m; cbn; eauto. Qed.

(** Under the wrappers the call reaches the class's method with the same
    arguments and the same backend; only the recording can differ. *)
Lemma invoke_unwrapped fuel m caller args kwargs b l :
  passes self caller args →
  ∃ l', invoke pkg fuel self m caller args kwargs (b, l)
        = invoke pkg fuel self (unwrapped m) (Some self) args kwargs (b, l').
Proof.
  revert caller l. induction m as [name body|a cb func IH]; intros caller l Hp.
  - exists l. apply invoke_Bound.
  - rewrite invoke_Inner. unfold inner. cbn [unwrapped].
    case_bool_decide as Hc; cbn [negb].
    + apply IH. by left.
    + destruct Hp as [?|(v & rest & -> & Hv)]; [done|].
      destruct (CacheOp_init_string_keys a (__name__ func) v Hv) as [op ->].
      apply IH. by left.
Qed.

Lemma same_backend_refl b : same_backend b b.
Proof. by split. Qed.

Lemma invoke_same_outcome fuel m1 m2 caller1 caller2 args kwargs b1 b2 l1 l2 :
  unwrapped m1 = unwrapped m2 →
  passes self caller1 args → passes self caller2 args →
  same_backend b1 b2 →
  same_outcome (invoke pkg fuel self m1 caller1 args kwargs (b1, l1))
               (invoke pkg fuel self m2 caller2 args kwargs (b2, l2)).
Proof.
  revert m1 m2 caller1 caller2 args kwargs b1 b2 l1 l2.
  induction fuel as [|fuel IHfuel];
    intros m1 m2 caller1 caller2 args kwargs b1 b2 l1 l2 Hm Hp1 Hp2 Hb.
  - destruct (invoke_unwrapped 0 m1 caller1 args kwargs b1 l1 Hp1) as [l1' ->].
    destruct (invoke_unwrapped 0 m2 caller2 args kwargs b2 l2 Hp2) as [l2' ->].
    rewrite <-Hm. destruct (unwrapped_Bound m1) as (name & body & ->). done.
  - destruct (invoke_unwrapped (S fuel) m1 caller1 args kwargs b1 l1 Hp1) as [l1' ->].
    destruct (invoke_unwrapped (S fuel) m2 caller2 args kwargs b2 l2 Hp2) as [l2' ->].
    rewrite <-Hm. destruct (unwrapped_Bound m1) as (name & body & ->).
    cbn [invoke call_method]. clear Hm Hp1 Hp2 l1 l2 m1 m2.
    generalize (body args kwargs). intros p.
    revert b1 b2 l1' l2' Hb.
    induction p as [r|f k IHp|name' args' kwargs' k IHp]; intros b1 b2 l1 l2 Hb.
    + done.
    + cbn [run_prog fst snd]. destruct Hb as [Hd Hmeth]. rewrite Hd.
      destruct (f (data b2)) as [d v]. apply IHp. by split.
    + cbn [run_prog fst snd].
      pose proof (proj2 Hb name') as Hn.
      destruct (methods b1 !! name') as [m1|], (methods b2 !! name') as [m2|];
        cbn in Hn; try done.
      * injection Hn as Hn.
        pose proof (IHfuel m1 m2 (Some self) (Some self) args' kwargs' b1 b2 l1 l2
                      Hn (or_introl eq_refl) (or_introl eq_refl) Hb) as Ho.
        destruct (invoke pkg fuel self m1 (Some self) args' kwargs' (b1, l1))
          as [[r1 [b1' l1']]|],
          (invoke pkg fuel self m2 (Some self) args' kwargs' (b2, l2))
          as [[r2 [b2' l2']]|]; cbn in Ho; try done.
        destruct Ho as [-> Hb']. by apply IHp.
      * by apply IHp.
Qed.

End Transparency.

(** ** Patching and restoring the methods *)

Section Patching.

Context {D L : Type}.

Implicit Types (caches : Caches D L) (b : Backend D L) (m : Method D L)
  (orig : gmap string (Method D L)).

Lemma bind_ok {S A B} (c : M S A) (k : A → M S B) (s s' : S) (x : A) :
  c s = (ok x, s') → bind c k s = k x s'.
Proof. unfold bind. by intros ->. Qed.

Lemma for_each_app {S A} (l1 l2 : list A) (body : A → M S unit) (s : S) :
  for_each (l1 ++ l2) body s = (for_each l1 body ;; for_each l2 body) s.
Proof.
  revert s. induction l1 as [|x l1 IH]; intros s; cbn [for_each app].
  - done.
  - specialize (IH). unfold bind in *.
    destruct (body x s) as [[e|[]] s']; [done|]. apply IH.
Qed.

Lemma dict_of_methods_spec (a : string) (names : list string) orig caches b :
  caches !! a = Some b →
  (∀ name, name ∈ names → is_Some (methods b !! name)) →
  ∃ orig',
    dict_of_methods a names orig caches = (ok orig', caches)
    ∧ ∀ name, orig' !! name
        = if decide (name ∈ names) then methods b !! name else orig !! name.
Proof.
  intros Ha. revert orig. induction names as [|n names IH]; intros orig Hn.
  - exists orig. split; [done|]. intros name. case_decide; [set_solver|done].
  - destruct (Hn n) as [m Hm]; [set_solver|].
    destruct (IH (<[n := m]> orig)) as (orig' & Hrun & Hlook); [set_solver|].
    exists orig'. split.
    + cbn [dict_of_methods]. erewrite bind_ok; [exact Hrun|].
      unfold getattr. rewrite Ha. cbn. by rewrite Hm.
    + intros name. rewrite Hlook.
      destruct (decide (name = n)) as [->|Hne].
      * rewrite lookup_insert_eq, Hm.
        rewrite (decide_True (P := n ∈ n :: names)) by left.
        by destruct (decide (n ∈ names)).
      * rewrite lookup_insert_ne by done.
        destruct (decide (name ∈ names)) as [Hin|Hin].
        -- rewrite (decide_True (P := name ∈ n :: names)) by (by right). done.
        -- rewrite (decide_False (P := name ∈ n :: names)); [done|].
           by intros [?|?]%elem_of_cons.
Qed.

(** The loop that installs [f orig[name]] under every [name]: [f] wraps on
    [__enter__] and is the identity on [__exit__]. *)
Lemma install_spec (f : Method D L → Method D L) (a : string)
    (names : list string) orig caches b :
  caches !! a = Some b →
  (∀ name, name ∈ names → is_Some (orig !! name)) →
  ∃ b',
    for_each names (λ name,
      orig_method <- getitem orig name ;; setattr a name (f orig_method)) caches
    = (ok tt, <[a := b']> caches)
    ∧ data b' = data b
    ∧ ∀ name, methods b' !! name
        = if decide (name ∈ names) then f <$> orig !! name else methods b !! name.
Proof.
  revert caches b. induction names as [|n names IH]; intros caches b Ha Hn.
  - exists b. split_and!; [|done|].
    + cbn. unfold ret. by rewrite insert_id.
    + intros name. case_decide; [set_solver|done].
  - destruct (Hn n) as [m Hm]; [set_solver|].
    set (b1 := mkBackend (<[n := f m]> (methods b)) (data b)).
    destruct (IH (<[a := b1]> caches) b1) as (b' & Hrun & Hd & Hlook);
      [by rewrite lookup_insert_eq|set_solver|].
    exists b'. split_and!; [|done|].
    + cbn [for_each]. erewrite bind_ok.
      * rewrite Hrun. by rewrite insert_insert_eq.
      * unfold getitem. rewrite Hm. unfold bind, ret, setattr. cbn.
        f_equal. apply map_eq. intros i. rewrite lookup_alter.
        destruct (decide (a = i)) as [<-|Hne].
        -- by rewrite lookup_insert_eq, Ha.
        -- by rewrite lookup_insert_ne.
    + intros name. rewrite Hlook. subst b1. cbn.
      destruct (decide (name = n)) as [->|Hne].
      * rewrite lookup_insert_eq, Hm. rewrite (decide_True (P := n ∈ n :: names)) by left.
        by destruct (decide (n ∈ names)).
      * rewrite lookup_insert_ne by done.
        destruct (decide (name ∈ names)) as [Hin|Hin].
        -- rewrite (decide_True (P := name ∈ n :: names)) by (by right). done.
        -- rewrite (decide_False (P := name ∈ n :: names)); [done|].
           by intros [?|?]%elem_of_cons.
Qed.

Lemma CacheRecorder_enter_spec (a : string) (cb : CacheOp → L → L) caches b :
  caches !! a = Some b → instrumentable b →
  ∃ orig b',
    CacheRecorder_enter (mkCacheRecorder a cb None) caches
    = (ok (mkCacheRecorder a cb (Some orig)), <[a := b']> caches)
    ∧ data b' = data b
    ∧ (∀ name, name ∈ cache_methods → orig !! name = methods b !! name)
    ∧ ∀ name, methods b' !! name
        = if decide (name ∈ cache_methods)
          then Inner a cb <$> methods b !! name else methods b !! name.
Proof.
  intros Ha Hb.
  destruct (dict_of_methods_spec a cache_methods ∅ caches b Ha Hb)
    as (orig & Horig & Hlook).
  assert (Ho : ∀ name, name ∈ cache_methods → orig !! name = methods b !! name).
  { intros name Hn. rewrite Hlook. by case_decide. }
  destruct (install_spec (Inner a cb) a cache_methods orig caches b Ha)
    as (b' & Hrun & Hd & Hm).
  { intros name Hn. rewrite Ho by done. by apply Hb. }
  exists orig, b'. split_and!; [|done..|].
  - unfold CacheRecorder_enter. cbn [recorder_alias recorder_callback].
    erewrite bind_ok; [|unfold caches_getitem; by rewrite Ha].
    erewrite bind_ok; [|exact Horig].
    erewrite bind_ok; [|exact Hrun]. done.
  - intros name. rewrite Hm. case_decide; [|done]. by rewrite Ho.
Qed.

Lemma CacheRecorder_exit_spec (a : string) (cb : CacheOp → L → L) orig
    (exc : ExcInfo) caches b :
  caches !! a = Some b →
  (∀ name, name ∈ cache_methods → is_Some (orig !! name)) →
  ∃ b',
    CacheRecorder_exit (mkCacheRecorder a cb (Some orig)) exc caches
    = (ok (mkCacheRecorder a cb None), <[a := b']> caches)
    ∧ data b' = data b
    ∧ ∀ name, methods b' !! name
        = if decide (name ∈ cache_methods) then orig !! name else methods b !! name.
Proof.
  intros Ha Ho.
  destruct (install_spec (λ m, m) a cache_methods orig caches b Ha Ho)
    as (b' & Hrun & Hd & Hm).
  exists b'. split_and!; [|done|].
  - unfold CacheRecorder_exit. cbn [recorder_alias recorder_callback orig_methods].
    erewrite bind_ok; [|unfold caches_getitem; by rewrite Ha].
    erewrite bind_ok; [|exact Hrun]. done.
  - intros name. rewrite Hm. case_decide; [|done]. by destruct (orig !! name).
Qed.

End Patching.

(** C3, refuted as stated: a list is a sequence, so [get_many([1])] is a
    valid call by the claim's reading, and the sample backend answers it; the
    instrumented [get_many] raises [TypeError] instead, from [re.sub] on the
    integer key. *)
Lemma integer_keys_not_transparent :
  let caches : Caches Sample.Store (list CacheOp) :=
    {["default" := Sample.backend ∅]} in
  let entered := CacheRecorder_enter (mkCacheRecorder "default" Sample.append None) caches in
  let args := [PyList [PyInt 1]] in
  isinstance_Mapping_Sequence (PyList [PyInt 1]) = true
  ∧ (∃ recorder, entered.1 = ok recorder)
  ∧ fst <$> call_cache django_perf_rec 2 "default" "get_many" None args []
              (caches, [])
    = Some (ok (PyDict []))
  ∧ fst <$> call_cache django_perf_rec 2 "default" "get_many" None args []
              (entered.2, [])
    = Some (raise TypeError).
Proof.
  cbv zeta. split_and!.
  - reflexivity.
  - eexists. reflexivity.
  - vm_compute. reflexivity.
  - vm_compute. reflexivity.
Qed.

(** C3, amended: for each of the nine operations and every call from
    outside the backend whose first positional argument is a string or a
    list, tuple or dict of strings, the instrumented method builds the event,
    hands it to the callback and delegates to the original method with the
    original arguments; the call ends as it does without instrumentation, with
    the same return value or exception and the same backend store, also when
    the backend's methods call one another. *)
Theorem instrumentation_transparent {D L : Type} pkg (fuel : nat)
    (a name : string) (cb : CacheOp → L → L) (caller : Frame)
    (v : PyVal) (rest : list PyVal) (kwargs : Kwargs)
    (caches : Caches D L) (b : Backend D L) (l0 l : L) :
  caches !! a = Some b → instrumentable b →
  name ∈ cache_methods → caller ≠ Some a → string_keys v = true →
  ∃ recorder b' m cache_op,
    CacheRecorder_enter (mkCacheRecorder a cb None) caches
    = (ok recorder, <[a := b']> caches)
    ∧ methods b !! name = Some m
    ∧ methods b' !! name = Some (Inner a cb m)
    ∧ CacheOp_init pkg a (__name__ m) v = ok cache_op
    ∧ invoke pkg fuel a (Inner a cb m) caller (v :: rest) kwargs (b', l)
      = invoke pkg fuel a m (Some a) (v :: rest) kwargs (b', cb cache_op l)
    ∧ same_outcome
        (invoke pkg fuel a m caller (v :: rest) kwargs (b, l0))
        (invoke pkg fuel a (Inner a cb m) caller (v :: rest) kwargs (b', l)).
Proof.
  intros Ha Hb Hname Hext Hv.
  destruct (CacheRecorder_enter_spec a cb caches b Ha Hb)
    as (orig & b' & Henter & Hd & Horig & Hm).
  destruct (Hb name Hname) as [m Hmeth].
  destruct (CacheOp_init_string_keys pkg a (__name__ m) v Hv) as [cache_op Hop].
  exists (mkCacheRecorder a cb (Some orig)), b', m, cache_op.
  split_and!.
  - exact Henter.
  - exact Hmeth.
  - rewrite Hm, decide_True, Hmeth by done. done.
  - exact Hop.
  - rewrite invoke_Inner. unfold inner.
    rewrite bool_decide_eq_false_2 by done. cbn [negb]. by rewrite Hop.
  - apply invoke_same_outcome; [done|right; eauto..|].
    split; [done|]. intros n. rewrite Hm.
    case_decide; [|done]. by destruct (methods b !! n).
Qed.

Lemma instrumentation_transparent_witness :
  let caches : Caches Sample.Store (list CacheOp) :=
    {["default" := Sample.backend ∅]} in
  let b : Backend Sample.Store (list CacheOp) := Sample.backend ∅ in
  let v := PyStr "user:12" in
  ∃ recorder b' m cache_op,
    CacheRecorder_enter (mkCacheRecorder "default" Sample.append None) caches
    = (ok recorder, <["default" := b']> caches)
    ∧ methods b !! "add" = Some m
    ∧ methods b' !! "add" = Some (Inner "default" Sample.append m)
    ∧ CacheOp_init django_perf_rec "default" (__name__ m) v = ok cache_op
    ∧ invoke django_perf_rec 3 "default" (Inner "default" Sample.append m) None
        [v; PyInt 3] [] (b', [])
      = invoke django_perf_rec 3 "default" m (Some "default")
          [v; PyInt 3] [] (b', Sample.append cache_op [])
    ∧ same_outcome
        (invoke django_perf_rec 3 "default" m None [v; PyInt 3] [] (b, []))
        (invoke django_perf_rec 3 "default" (Inner "default" Sample.append m) None
           [v; PyInt 3] [] (b', [])).
Proof.
  apply (instrumentation_transparent django_perf_rec 3 "default" "add"
           Sample.append None (PyStr "user:12") [PyInt 3] []
           {["default" := Sample.backend ∅]} (Sample.backend ∅) [] []).
  - reflexivity.
  - intros name Hname. unfold Sample.backend, Sample.class_methods. cbn [methods].
    repeat (apply elem_of_cons in Hname as [->|Hname]; [by eexists|]).
    by apply elem_of_nil in Hname.
  - unfold cache_methods. apply list_elem_of_here.
  - discriminate.
  - reflexivity.
Defined.

(** ** Acquire and release *)

Section RoundTrip.

Context {D L : Type}.

Implicit Types (caches : Caches D L) (b : Backend D L).

Lemma fmap_methods_insert caches (a : string) b :
  methods <$> <[a := b]> caches = <[a := methods b]> (methods <$> caches).
Proof. apply fmap_insert. Qed.

Lemma fmap_data_insert_same caches (a : string) b b' :
  caches !! a = Some b → data b' = data b →
  data <$> <[a := b']> caches = data <$> caches.
Proof.
  intros Ha Hd. rewrite fmap_insert. apply insert_id.
  by rewrite lookup_fmap, Ha, Hd.
Qed.

Lemma lookup_same_methods caches caches' (a : string) b :
  methods <$> caches' = methods <$> caches → caches !! a = Some b →
  ∃ b', caches' !! a = Some b' ∧ methods b' = methods b.
Proof.
  intros Hm Ha.
  assert (H : (methods <$> caches') !! a = Some (methods b))
    by (by rewrite Hm, lookup_fmap, Ha).
  rewrite lookup_fmap in H.
  destruct (caches' !! a) as [b'|]; [|done]. injection H as H. eauto.
Qed.

Lemma configured_same_methods (names : list string) caches caches' :
  methods <$> caches' = methods <$> caches →
  configured names caches → configured names caches'.
Proof.
  intros Hm Hc a Ha. destruct (Hc a Ha) as (b & Hb & Hi).
  destruct (lookup_same_methods caches caches' a b Hm Hb) as (b' & Hb' & Hmb).
  exists b'. split; [done|]. intros name Hn. rewrite Hmb. by apply Hi.
Qed.

(** One recorder: what [__exit__] restores is what [__enter__] found,
    whatever happened to the stores in between. *)
Lemma CacheRecorder_round_trip (a : string) (cb : CacheOp → L → L)
    (exc : ExcInfo) caches b :
  caches !! a = Some b → instrumentable b →
  ∃ recorder caches1,
    CacheRecorder_enter (mkCacheRecorder a cb None) caches = (ok recorder, caches1)
    ∧ recorder_alias recorder = a
    ∧ data <$> caches1 = data <$> caches
    ∧ (∀ names, configured names caches → configured names caches1)
    ∧ ∀ caches2, methods <$> caches2 = methods <$> caches1 →
        ∃ recorder' caches3,
          CacheRecorder_exit recorder exc caches2 = (ok recorder', caches3)
          ∧ methods <$> caches3 = methods <$> caches
          ∧ data <$> caches3 = data <$> caches2.
Proof.
  intros Ha Hb.
  destruct (CacheRecorder_enter_spec a cb caches b Ha Hb)
    as (orig & b1 & Henter & Hd & Horig & Hm).
  exists (mkCacheRecorder a cb (Some orig)), (<[a := b1]> caches).
  split_and!.
  - exact Henter.
  - done.
  - by apply fmap_data_insert_same with b.
  - intros names Hc a' Ha'. destruct (Hc a' Ha') as (b' & Hb' & Hi).
    destruct (decide (a = a')) as [<-|Hne].
    + exists b1. rewrite lookup_insert_eq. split; [done|].
      intros name Hn. rewrite Hm, decide_True by done.
      destruct (Hb name Hn) as [m ->]. by eexists.
    + exists b'. by rewrite lookup_insert_ne.
  - intros caches2 Hsame.
    destruct (lookup_same_methods (<[a := b1]> caches) caches2 a b1 Hsame)
      as (b2 & Hb2 & Hmb2); [by rewrite lookup_insert_eq|].
    destruct (CacheRecorder_exit_spec a cb orig exc caches2 b2 Hb2)
      as (b3 & Hexit & Hd3 & Hm3).
    { intros name Hn. rewrite Horig by done. by apply Hb. }
    exists (mkCacheRecorder a cb None), (<[a := b3]> caches2).
    split_and!.
    + exact Hexit.
    + apply map_eq. intros i.
      pose proof (f_equal (.!! i) Hsame) as Hi. rewrite !lookup_fmap in Hi.
      rewrite !lookup_fmap. destruct (decide (a = i)) as [<-|Hne].
      * rewrite lookup_insert_eq, Ha. cbn. f_equal.
        apply map_eq. intros name. rewrite Hm3.
        case_decide as Hn.
        -- by rewrite Horig.
        -- rewrite Hmb2, Hm. by rewrite decide_False.
      * rewrite lookup_insert_ne by done. rewrite lookup_insert_ne in Hi by done.
        exact Hi.
    + by apply fmap_data_insert_same with b2.
Qed.

Lemma enter_each_round_trip (cb : CacheOp → L → L) (exc : ExcInfo)
    (names : list string) (acc : list (CacheRecorder D L)) caches :
  configured names caches →
  ∃ rs caches1,
    enter_each cb names acc caches = (ok (acc ++ rs), caches1)
    ∧ recorder_alias <$> rs = names
    ∧ data <$> caches1 = data <$> caches
    ∧ ∀ caches2, methods <$> caches2 = methods <$> caches1 →
        ∃ caches3,
          exit_each exc (reverse rs) caches2 = (ok tt, caches3)
          ∧ methods <$> caches3 = methods <$> caches
          ∧ data <$> caches3 = data <$> caches2.
Proof.
  revert acc caches. induction names as [|a names IH]; intros acc caches Hc.
  - exists [], caches. split_and!; [by rewrite app_nil_r|done..|].
    intros caches2 Hsame. by exists caches2.
  - destruct (Hc a) as (b & Ha & Hb); [by left|].
    destruct (CacheRecorder_round_trip a cb exc caches b Ha Hb)
      as (r & caches1 & Henter & Hal & Hd1 & Hconf & Hexit).
    destruct (IH (acc ++ [r]) caches1) as (rs & cachesn & Hrest & Hals & Hdn & Hexits).
    { apply Hconf. intros a' Ha'. apply Hc. by right. }
    exists (r :: rs), cachesn. split_and!.
    + cbn [enter_each]. erewrite bind_ok; [|exact Henter].
      rewrite Hrest. by rewrite <-app_assoc.
    + cbn. by rewrite Hal, Hals.
    + by rewrite Hdn.
    + intros caches2 Hsame.
      destruct (Hexits caches2 Hsame) as (caches3 & Hex3 & Hm3 & Hd3).
      destruct (Hexit caches3 Hm3) as (r' & caches4 & Hex4 & Hm4 & Hd4).
      exists caches4. split_and!.
      * unfold exit_each in *. rewrite reverse_cons, for_each_app.
        erewrite bind_ok; [|exact Hex3].
        cbn [for_each]. unfold bind at 1. unfold bind at 1.
        rewrite Hex4. done.
      * done.
      * by rewrite Hd4.
Qed.

End RoundTrip.

Lemma AllCacheRecorder_enter_ok {D L : Type} (cb : CacheOp → L → L)
    (names : list string) (caches : Caches D L) :
  configured names caches →
  ∃ self caches1, ∀ recorders0,
    AllCacheRecorder_enter (mkAllCacheRecorder cb recorders0) names caches
    = (ok self, caches1).
Proof.
  intros Hc.
  destruct (enter_each_round_trip cb None names [] caches Hc)
    as (rs & caches1 & Henter & _).
  exists (mkAllCacheRecorder cb rs), caches1. intros recorders0.
  unfold AllCacheRecorder_enter. cbn [all_callback].
  erewrite bind_ok; [|exact Henter]. done.
Qed.

Lemma caches_eq {D L : Type} (caches caches' : Caches D L) :
  methods <$> caches' = methods <$> caches →
  data <$> caches' = data <$> caches →
  caches' = caches.
Proof.
  intros Hm Hd. apply map_eq. intros a.
  pose proof (f_equal (.!! a) Hm) as Hma.
  pose proof (f_equal (.!! a) Hd) as Hda.
  rewrite !lookup_fmap in Hma. rewrite !lookup_fmap in Hda.
  destruct (caches' !! a) as [[m' d']|], (caches !! a) as [[m d]|];
    cbn in *; congruence.
Qed.

(** The order of release matters in this model: with the backend [default]
    acquired twice, releasing in the order of acquisition leaves the first
    recorder's wrapper installed under [get], while [__exit__] leaves the
    class's method there. *)
Example release_in_acquisition_order_leaks :
  let caches : Caches Sample.Store (list CacheOp) :=
    {["default" := Sample.backend ∅]} in
  let acquired :=
    AllCacheRecorder_enter (mkAllCacheRecorder Sample.append [])
      ["default"; "default"] caches in
  let get_of (cs : Caches Sample.Store (list CacheOp)) :=
    cs !! "default" ≫= λ b, methods b !! "get" in
  ∃ self,
    acquired.1 = ok self
    ∧ get_of (exit_each None (recorders self) acquired.2).2
      = Some (Inner "default" Sample.append (Bound "get" Sample.get_))
    ∧ get_of (AllCacheRecorder_exit self None acquired.2).2
      = Some (Bound "get" Sample.get_).
Proof.
  cbv zeta. eexists. split; [reflexivity|]. split; vm_compute; reflexivity.
Qed.

(** C4: acquiring and releasing the recorder of all backends is a round
    trip.  The recorders are kept in the order of acquisition, [__exit__]
    releases them over the reversed list, and afterwards every method of
    every backend is the one found at acquisition while the stores are as the
    code under test left them; this does not depend on how the scope was
    left.  Releasing right after acquiring gives back the initial state. *)
Theorem acquire_release_round_trip {D L : Type} (cb : CacheOp → L → L)
    (names : list string) (exc : ExcInfo) (caches : Caches D L) :
  configured names caches →
  ∃ self caches1,
    AllCacheRecorder_enter (mkAllCacheRecorder cb []) names caches
    = (ok self, caches1)
    ∧ recorder_alias <$> recorders self = names
    ∧ (∀ caches2, methods <$> caches2 = methods <$> caches1 →
        ∃ caches3,
          AllCacheRecorder_exit self exc caches2
          = (ok (mkAllCacheRecorder cb []), caches3)
          ∧ exit_each exc (reverse (recorders self)) caches2 = (ok tt, caches3)
          ∧ recorder_alias <$> reverse (recorders self) = reverse names
          ∧ methods <$> caches3 = methods <$> caches
          ∧ data <$> caches3 = data <$> caches2)
    ∧ AllCacheRecorder_exit self exc caches1
      = (ok (mkAllCacheRecorder cb []), caches).
Proof.
  intros Hc.
  destruct (enter_each_round_trip cb exc names [] caches Hc)
    as (rs & caches1 & Henter & Hal & Hd & Hexit).
  exists (mkAllCacheRecorder cb rs), caches1.
  assert (Hexit' : ∀ caches2, methods <$> caches2 = methods <$> caches1 →
            ∃ caches3,
              AllCacheRecorder_exit (mkAllCacheRecorder cb rs) exc caches2
              = (ok (mkAllCacheRecorder cb []), caches3)
              ∧ exit_each exc (reverse rs) caches2 = (ok tt, caches3)
              ∧ recorder_alias <$> reverse rs = reverse names
              ∧ methods <$> caches3 = methods <$> caches
              ∧ data <$> caches3 = data <$> caches2).
  { intros caches2 Hsame.
    destruct (Hexit caches2 Hsame) as (caches3 & Hex & Hm3 & Hd3).
    exists caches3. split_and!; [|done| |done..].
    - unfold AllCacheRecorder_exit. cbn [recorders all_callback].
      erewrite bind_ok; [|exact Hex]. done.
    - by rewrite fmap_reverse, Hal. }
  split_and!.
  - unfold AllCacheRecorder_enter. cbn [all_callback].
    erewrite bind_ok; [|exact Henter]. done.
  - done.
  - exact Hexit'.
  - destruct (Hexit' caches1 eq_refl) as (caches3 & Hex & _ & _ & Hm3 & Hd3).
    rewrite Hex. f_equal. apply caches_eq; [done|]. by rewrite Hd3.
Qed.

Lemma sample_instrumentable {L : Type} (store : Sample.Store) :
  instrumentable (Sample.backend (L := L) store).
Proof.
  intros name Hname. unfold Sample.backend, Sample.class_methods. cbn [methods].
  repeat (apply elem_of_cons in Hname as [->|Hname]; [by eexists|]).
  by apply elem_of_nil in Hname.
Qed.

Lemma acquire_release_round_trip_witness :
  let caches : Caches Sample.Store (list CacheOp) :=
    {["default" := Sample.backend ∅; "sessions" := Sample.backend {["n" := PyInt 1]}]} in
  let names := ["default"; "sessions"] in
  let exc := Some (BackendError "boom") in
  ∃ self caches1,
    AllCacheRecorder_enter (mkAllCacheRecorder Sample.append []) names caches
    = (ok self, caches1)
    ∧ recorder_alias <$> recorders self = names
    ∧ (∀ caches2, methods <$> caches2 = methods <$> caches1 →
        ∃ caches3,
          AllCacheRecorder_exit self exc caches2
          = (ok (mkAllCacheRecorder Sample.append []), caches3)
          ∧ exit_each exc (reverse (recorders self)) caches2 = (ok tt, caches3)
          ∧ recorder_alias <$> reverse (recorders self) = reverse names
          ∧ methods <$> caches3 = methods <$> caches
          ∧ data <$> caches3 = data <$> caches2)
    ∧ AllCacheRecorder_exit self exc caches1
      = (ok (mkAllCacheRecorder Sample.append []), caches).
Proof.
  apply (acquire_release_round_trip Sample.append ["default"; "sessions"]
           (Some (BackendError "boom"))
           {["default" := Sample.backend ∅;
             "sessions" := Sample.backend {["n" := PyInt 1]}]}).
  intros a Ha.
  apply elem_of_cons in Ha as [->|Ha];
    [eexists; split; [reflexivity|apply sample_instrumentable]|].
  apply elem_of_cons in Ha as [->|Ha];
    [eexists; split; [reflexivity|apply sample_instrumentable]|].
  by apply elem_of_nil in Ha.
Defined.

(** ** Closing a session *)

Section Close.

Context {D : Type}.
Variable yaml_load : string → gmap string Recording.
Variable yaml_dump : gmap string Recording → string.

Implicit Types (self : PerformanceRecorder (D := D)) (w : World (D := D)).

Lemma exit_released self (exc : ExcInfo) w cache_recorder' caches' :
  AllCacheRecorder_exit (cache_recorder self) exc (caches w)
  = (ok cache_recorder', caches') →
  PerformanceRecorder_exit yaml_dump self exc w
  = match exc with
    | None =>
        save_or_assert yaml_dump
          (mkPerformanceRecorder (file_name self) (record_name self)
             (record_ self) cache_recorder' (records_file self))
          (mkWorld caches' (disk w))
    | Some _ =>
        (ok (mkPerformanceRecorder (file_name self) (record_name self)
               (record_ self) cache_recorder' (records_file self)),
         mkWorld caches' (disk w))
    end.
Proof.
  intros Hexit. unfold PerformanceRecorder_exit.
  erewrite bind_ok; [|unfold on_caches, zoom; by rewrite Hexit].
  by destruct exc.
Qed.

End Close.

(** C1: when the session is left normally and the captured recording equals
    the one stored under the session's name, closing succeeds and the
    snapshot file holds the same content afterwards.  [set_and_save] is still
    called and rewrites the file; the content is unchanged because the file
    is in the store's serialized form, [yaml_dump (yaml_load content) =
    content], which is the spec's round-trip property of the Snapshot Store. *)
Theorem identical_recording_keeps_file {D : Type}
    (yaml_load : string → gmap string Recording)
    (yaml_dump : gmap string Recording → string)
    (self : PerformanceRecorder (D := D)) (w : World (D := D))
    (cache_recorder' : AllCacheRecorder D Recording) (caches' : Caches D Recording)
    (rf : KVFile) (content : string) :
  AllCacheRecorder_exit (cache_recorder self) None (caches w)
  = (ok cache_recorder', caches') →
  records_file self = Some rf →
  kv_file_name rf = file_name self →
  disk w !! file_name self = Some content →
  kv_data rf = yaml_load content →
  yaml_dump (yaml_load content) = content →
  KVFile_get rf (record_name self) None = Some (record_ self) →
  ∃ self' w',
    PerformanceRecorder_exit yaml_dump self None w = (ok self', w')
    ∧ disk w' = disk w
    ∧ disk w' !! file_name self = Some content
    ∧ caches w' = caches'.
Proof.
  intros Hexit Hrf Hfn Hdisk Hdata Hround Hget.
  rewrite (exit_released yaml_dump self None w _ _ Hexit).
  unfold save_or_assert. cbn [records_file record_name record_ file_name cache_recorder].
  rewrite Hrf, Hget, bool_decide_eq_true_2 by done.
  assert (Hins : <[record_name self := record_ self]> (kv_data rf) = kv_data rf).
  { apply insert_id. unfold KVFile_get in Hget.
    by destruct (kv_data rf !! record_name self). }
  unfold bind, ret, on_disk, zoom, KVFile_set_and_save. cbn.
  rewrite Hins, Hfn, Hdata, Hround. rewrite insert_id by done.
  eexists _, _. split; [reflexivity|]. done.
Qed.

(** C2: when the session is left normally and a different recording is
    stored under the session's name, closing raises an assertion error whose
    message ends with the recording's name; nothing is written, so the files
    are as before. *)
Theorem mismatch_raises_and_keeps_file {D : Type}
    (yaml_dump : gmap string Recording → string)
    (self : PerformanceRecorder (D := D)) (w : World (D := D))
    (cache_recorder' : AllCacheRecorder D Recording) (caches' : Caches D Recording)
    (rf : KVFile) (stored : Recording) :
  AllCacheRecorder_exit (cache_recorder self) None (caches w)
  = (ok cache_recorder', caches') →
  records_file self = Some rf →
  KVFile_get rf (record_name self) None = Some stored →
  record_ self ≠ stored →
  PerformanceRecorder_exit yaml_dump self None w
  = (raise (AssertionError
              ("Performance record did not match for " +:+ record_name self)),
     mkWorld caches' (disk w)).
Proof.
  intros Hexit Hrf Hget Hne.
  rewrite (exit_released yaml_dump self None w _ _ Hexit).
  unfold save_or_assert. cbn [records_file record_name record_ file_name cache_recorder].
  rewrite Hrf, Hget, bool_decide_eq_false_2 by done.
  reflexivity.
Qed.

Lemma identical_recording_keeps_file_witness :
  ∃ self w,
    Sample.after_call "get" [PyStr "user:12"] = Some (self, w)
    ∧ ∃ self' w',
        PerformanceRecorder_exit Sample.yaml_dump self None w = (ok self', w')
        ∧ disk w' = disk w
        ∧ disk w' !! file_name self = Some Sample.text
        ∧ caches w' = {["default" := Sample.backend ∅]}.
Proof.
  eexists _, _. split; [vm_compute; reflexivity|].
  eapply (identical_recording_keeps_file (D := Sample.Store)
            Sample.yaml_load Sample.yaml_dump).
  - vm_compute. reflexivity.
  - reflexivity.
  - reflexivity.
  - reflexivity.
  - reflexivity.
  - reflexivity.
  - vm_compute. reflexivity.
Defined.

Lemma mismatch_raises_and_keeps_file_witness :
  ∃ self w,
    Sample.after_call "set" [PyStr "user:12"; PyInt 1] = Some (self, w)
    ∧ PerformanceRecorder_exit Sample.yaml_dump self None w
      = (raise (AssertionError
                  "Performance record did not match for ApiTests.test_get"),
         mkWorld {["default" := Sample.backend {["user:12" := PyInt 1]}]}
           {["tests/test_api.perf.yml" := Sample.text]}).
Proof.
  eexists _, _. split; [vm_compute; reflexivity|].
  eapply (mismatch_raises_and_keeps_file (D := Sample.Store) Sample.yaml_dump).
  - vm_compute. reflexivity.
  - reflexivity.
  - vm_compute. reflexivity.
  - vm_compute. discriminate.
Defined.

Lemma invalid_key_shape_witness :
  let st : Backend Sample.Store (list CacheOp) * list CacheOp :=
    (Sample.backend ∅, []) in
  invoke django_perf_rec 3 "default"
    (Inner "default" Sample.append (Bound "get" Sample.get_)) None
    [PyInt 7] [] st
  = Some (raise (ValueError "key_or_keys must be a string, mapping, or sequence"),
          st).
Proof.
  apply (proj2 (invalid_key_shape django_perf_rec 3 "default" "default"
                  Sample.append (Bound "get" Sample.get_) None (PyInt 7) [] []
                  (Sample.backend ∅, [])));
    [discriminate|reflexivity..].
Defined.

Lemma no_positional_argument_witness :
  let st : Backend Sample.Store (list CacheOp) * list CacheOp :=
    (Sample.backend {["k" := PyInt 1]}, []) in
  let kwargs := [("key", PyStr "k")] in
  invoke django_perf_rec 3 "default" (Bound "get" Sample.get_) None [] kwargs st
  = Some (ok (PyInt 1), st)
  ∧ invoke django_perf_rec 3 "default"
      (Inner "default" Sample.append (Bound "get" Sample.get_)) None [] kwargs st
    = Some (raise IndexError, st).
Proof.
  split; [vm_compute; reflexivity|].
  apply (no_positional_argument django_perf_rec 3 "default" "default"
           Sample.append (Bound "get" Sample.get_) None [("key", PyStr "k")]
           (Sample.backend {["k" := PyInt 1]}, [])).
  discriminate.
Defined.

Lemma string_key_is_single_key_witness :
  CacheOp_init django_perf_rec "default" "get" (PyStr "ba")
  = ok (mkCacheOp "default" "get" (Key "ba"))
  ∧ key_or_keys (mkCacheOp "default" "get" (Key "ba")) ≠ Keys ["a"; "b"].
Proof.
  pose proof (string_key_is_single_key django_perf_rec "default" "get" "ba")
    as (_ & Hinit & Hkeys).
  split; [exact Hinit|]. apply (Hkeys _ ["a"; "b"]). exact Hinit.
Defined.

(** [__enter__] leaves the session as C1 and C2 assume it: the recorders are
    acquired and the store is loaded from the file of the session, or empty
    when there is no such file. *)
Lemma PerformanceRecorder_enter_loads {D : Type}
    (yaml_load : string → gmap string Recording)
    (self : PerformanceRecorder (D := D)) (names : list string)
    (w : World (D := D)) :
  configured names (caches w) →
  ∃ self' w',
    PerformanceRecorder_enter yaml_load self names w = (ok self', w')
    ∧ disk w' = disk w
    ∧ file_name self' = file_name self
    ∧ record_name self' = record_name self
    ∧ record_ self' = record_ self
    ∧ records_file self'
      = Some (mkKVFile (file_name self)
                (match disk w !! file_name self with
                 | Some content => yaml_load content
                 | None => ∅
                 end)).
Proof.
  intros Hc.
  destruct (AllCacheRecorder_enter_ok (all_callback (cache_recorder self))
              names (caches w) Hc) as (cr & caches1 & Henter).
  specialize (Henter (recorders (cache_recorder self))).
  assert (Hself : mkAllCacheRecorder (all_callback (cache_recorder self))
                    (recorders (cache_recorder self)) = cache_recorder self)
    by (by destruct (cache_recorder self)).
  rewrite Hself in Henter.
  eexists _, _. split.
  - unfold PerformanceRecorder_enter.
    erewrite bind_ok; [|unfold on_caches, zoom; by rewrite Henter].
    reflexivity.
  - done.
Qed.

(** The sample backend's [add] calls its own [get] and [set]; with the
    recorder attached one event is recorded, for [add], and the key is
    stored. *)
Example add_records_one_event :
  let caches : Caches Sample.Store (list CacheOp) :=
    {["default" := Sample.backend ∅]} in
  let entered :=
    CacheRecorder_enter (mkCacheRecorder "default" Sample.append None) caches in
  match call_cache django_perf_rec 3 "default" "add" None
          [PyStr "user:12"; PyInt 3] [] (entered.2, []) with
  | Some (r, (caches', events)) =>
      r = ok (PyInt 1)
      ∧ data <$> caches' !! "default" = Some ({["user:12" := PyInt 3]} : Sample.Store)
      ∧ events = [mkCacheOp "default" "add" (Key "user:#")]
  | None => False
  end.
Proof. vm_compute. split_and!; reflexivity. Qed.

(** * Further properties of the code *)

(** ** The key normalizer *)

Lemma length_hash (s : string) : String.length ("#" +:+ s) = S (String.length s).
Proof. reflexivity. Qed.

Lemma sub_scan_length (p : regex) (before : string) (skip : nat) (s : string) :
  (String.length (sub_scan p "#" before skip s) ≤ String.length s)%nat.
Proof.
  revert before skip. induction s as [|c s IH]; intros before skip; [done|].
  cbn [sub_scan]. destruct skip as [|skip].
  - destruct (match_here p before (String c s)) as [[|k]|].
    + cbn [String.length]. specialize (IH (String c before) 0). lia.
    + rewrite length_hash. cbn [String.length].
      specialize (IH (String c before) k). lia.
    + cbn [String.length]. specialize (IH (String c before) 0). lia.
  - cbn [String.length]. specialize (IH (String c before) skip). lia.
Qed.

Lemma apply_rules_length (rules : list regex) (s : string) :
  (String.length (apply_rules rules s) ≤ String.length s)%nat.
Proof.
  revert s. induction rules as [|p rules IH]; intros s; [done|].
  cbn. etrans; [apply IH|]. apply sub_scan_length.
Qed.

(** X1: normalizing never makes a key longer. *)
Theorem clean_key_length pkg (k : string) :
  (String.length (clean_key pkg k) ≤ String.length k)%nat.
Proof. apply apply_rules_length. Qed.

Lemma match_here_min_len (p : regex) (before s : string) (n : nat) :
  match_here p before s = Some n → (min_len p ≤ n ≤ String.length s)%nat.
Proof.
  revert before s n. induction p as [|node p IH]; intros before s n.
  - cbn. intros [= <-]. lia.
  - destruct node as [lit| |c|cls m|cls]; cbn [match_here]; unfold min_len;
      cbn [sum_list_with]; fold (min_len p).
    + destruct (starts_with _ _); [|done]. intros H. apply IH in H. lia.
    + destruct (at_boundary _ _); [|done]. intros H. apply IH in H. lia.
    + destruct s as [|c' s]; [done|]. case_decide; [|done].
      destruct (match_here p (String c' before) s) as [k|] eqn:Hk; [|done].
      cbn. intros [= <-]. apply IH in Hk. cbn [String.length]. lia.
    + revert before s n. induction m as [|m IHm]; intros before s n.
      * intros H. apply IH in H. lia.
      * destruct s as [|c s]; [done|]. destruct (in_class cls c); [|done].
        match goal with |- S <$> ?x = _ → _ => destruct x as [k|] eqn:Hk end;
          [|done].
        cbn. intros [= <-]. apply IHm in Hk. cbn [String.length]. lia.
    + revert before n. induction s as [|c s IHs]; intros before n; [done|].
      destruct (in_class cls c); [|done].
      match goal with
      | |- match ?x with Some _ => _ | None => _ end = _ → _ =>
          destruct x as [k|] eqn:Hk
      end.
      * intros [= <-]. apply IHs in Hk. cbn [String.length]. lia.
      * destruct (match_here p (String c before) s) as [k|] eqn:Hk'; [|done].
        cbn. intros [= <-]. apply IH in Hk'. cbn [String.length]. lia.
Qed.

(** A pattern that needs more characters than are left replaces nothing. *)
Lemma sub_scan_short (p : regex) (before s : string) :
  (String.length s < min_len p)%nat → sub_scan p "#" before 0 s = s.
Proof.
  revert before. induction s as [|c s IH]; intros before Hlen; [done|].
  cbn [sub_scan].
  destruct (match_here p before (String c s)) as [n|] eqn:Hn.
  - apply match_here_min_len in Hn. lia.
  - rewrite IH; [done|]. cbn [String.length] in Hlen. lia.
Qed.

Lemma apply_rules_short (rules : list regex) (s : string) :
  Forall (λ p, (String.length s < min_len p)%nat) rules → apply_rules rules s = s.
Proof.
  induction 1 as [|p rules Hp _ IH]; [done|].
  cbn. unfold re_sub. rewrite sub_scan_short by done. exact IH.
Qed.

(** X2: a key of fewer than 32 characters without a decimal digit is its
    own normal form. *)
Theorem clean_key_short_unchanged pkg (k : string) :
  (String.length k < 32)%nat → has_digit k = false → clean_key pkg k = k.
Proof.
  intros Hlen Hd. rewrite clean_key_split.
  rewrite apply_rules_short.
  - by apply sub_integers_id.
  - destruct pkg; cbv [hash_rules VARIABLE_RES removelast];
      repeat (apply Forall_cons; split; [vm_compute min_len; lia|]);
      by apply Forall_nil.
Qed.

Lemma clean_key_short_unchanged_witness :
  clean_key django_perf_rec "user:profile" = "user:profile".
Proof.
  apply (clean_key_short_unchanged django_perf_rec "user:profile").
  - cbn. lia.
  - reflexivity.
Defined.

(** ** Building an operation event *)

(** X3: [CacheOp.__init__] raises [TypeError] exactly when the argument is a
    list, tuple or dict with a key that is not a string: the key reaches
    [re.sub] in [clean_key]. *)
Theorem CacheOp_init_TypeError pkg (a op : string) (v : PyVal) :
  CacheOp_init pkg a op v = raise TypeError
  ↔ isinstance_str v = false
    ∧ isinstance_Mapping_Sequence v = true
    ∧ forallb isinstance_str (py_iter v) = false.
Proof.
  destruct v; cbn [CacheOp_init isinstance_str isinstance_Mapping_Sequence];
    try (split; [done|by intros (? & ? & ?)]).
  all: rewrite map_result_clean_key;
    destruct (forallb isinstance_str _) eqn:Hf; cbn;
    (split; [done|by intros (? & ? & ?)]) || (split; [done|done]).
Qed.

Lemma omap_strings (pkg : Package) (vs : list PyVal) :
  forallb isinstance_str vs = true →
  ∃ ks, vs = PyStr <$> ks
        ∧ omap (λ v, match v with PyStr s => Some (clean_key pkg s) | _ => None end) vs
          = clean_key pkg <$> ks.
Proof.
  induction vs as [|v vs IH]; intros Hf.
  - by exists [].
  - cbn in Hf. apply andb_true_iff in Hf as [Hv Hf].
    destruct (IH Hf) as (ks & -> & Hks). destruct v; try done.
    exists (s :: ks). split; [done|]. cbn. by rewrite Hks.
Qed.

(** X4: the event built from a collection keeps every key: its keys are
    the normalized keys of the collection rearranged, duplicates included,
    so there are as many as the collection has elements. *)
Theorem CacheOp_init_keeps_keys pkg (a op : string) (v : PyVal) (e : CacheOp) :
  isinstance_str v = false →
  CacheOp_init pkg a op v = ok e →
  ∃ ks sorted_keys,
    py_iter v = PyStr <$> ks
    ∧ e = mkCacheOp a op (Keys sorted_keys)
    ∧ sorted_keys ≡ₚ clean_key pkg <$> ks
    ∧ length sorted_keys = length (py_iter v).
Proof.
  intros Hs Hinit.
  assert (Hr : Result_bind (map_result (clean_key_py pkg) (py_iter v))
                 (λ ks, ok (mkCacheOp a op (Keys (sorted ks)))) = ok e).
  { destruct v; try done. }
  rewrite map_result_clean_key in Hr.
  destruct (forallb isinstance_str (py_iter v)) eqn:Hf; [|done].
  destruct (omap_strings pkg (py_iter v) Hf) as (ks & Hks & Hom).
  cbn in Hr. rewrite Hom in Hr. injection Hr as <-.
  exists ks, (sorted (clean_key pkg <$> ks)).
  assert (Hp : sorted (clean_key pkg <$> ks) ≡ₚ clean_key pkg <$> ks)
    by apply merge_sort_Permutation.
  split_and!; [done..|].
  by rewrite Hp, Hks, !length_fmap.
Qed.

Lemma CacheOp_init_keeps_keys_witness :
  ∃ ks sorted_keys,
    py_iter (PyTuple [PyStr "b:2"; PyStr "a"; PyStr "b:1"]) = PyStr <$> ks
    ∧ mkCacheOp "default" "delete_many" (Keys ["a"; "b:#"; "b:#"])
      = mkCacheOp "default" "delete_many" (Keys sorted_keys)
    ∧ sorted_keys ≡ₚ clean_key django_perf_rec <$> ks
    ∧ length sorted_keys
      = length (py_iter (PyTuple [PyStr "b:2"; PyStr "a"; PyStr "b:1"])).
Proof.
  apply (CacheOp_init_keeps_keys django_perf_rec "default" "delete_many"
           (PyTuple [PyStr "b:2"; PyStr "a"; PyStr "b:1"])).
  - reflexivity.
  - vm_compute. reflexivity.
Defined.

(** ** What a call records *)

Section Recording.

Context {D L : Type}.
Variable pkg : Package.
Variable self : string.

Implicit Types (m func : Method D L) (b : Backend D L) (l : L).

Lemma keeps_trans b b1 l o :
  methods b1 = methods b → keeps b1 l o → keeps b l o.
Proof.
  intros Hm. destruct o as [[r [b' l']]|]; [|done]. cbn. intros [? ?].
  split; congruence.
Qed.

Lemma run_prog_keeps (call : string → Call D L) (p : Prog D) b l :
  (∀ name args kwargs b0 l0, keeps b0 l0 (call name args kwargs (b0, l0))) →
  keeps b l (run_prog call p (b, l)).
Proof.
  intros Hcall. revert b l.
  induction p as [r|f k IH|name args kwargs k IH]; intros b l.
  - done.
  - cbn [run_prog fst snd]. destruct (f (data b)) as [d v].
    apply keeps_trans with (mkBackend (methods b) d); [done|]. apply IH.
  - cbn [run_prog]. pose proof (Hcall name args kwargs b l) as Hc.
    destruct (call name args kwargs (b, l)) as [[r [b1 l1]]|]; [|done].
    destruct Hc as [Hm ->]. apply keeps_trans with b1; [done|]. apply IH.
Qed.

Lemma call_method_internal_keeps (enter : (list PyVal → Kwargs → Prog D) → Call D L)
    m args kwargs b l :
  (∀ body args' kwargs' b0 l0, keeps b0 l0 (enter body args' kwargs' (b0, l0))) →
  keeps b l (call_method pkg enter self m (Some self) args kwargs (b, l)).
Proof.
  intros Henter. induction m as [name body|a cb func IH]; cbn [call_method].
  - apply Henter.
  - unfold inner. by rewrite bool_decide_eq_true_2.
Qed.

Lemma invoke_internal_keeps fuel m args kwargs b l :
  keeps b l (invoke pkg fuel self m (Some self) args kwargs (b, l)).
Proof.
  revert m args kwargs b l. induction fuel as [|fuel IH]; intros m args kwargs b l.
  - cbn [invoke]. by apply call_method_internal_keeps.
  - cbn [invoke]. apply call_method_internal_keeps.
    intros body args' kwargs' b0 l0. apply run_prog_keeps.
    intros name args'' kwargs'' b1 l1. cbn [fst].
    destruct (methods b1 !! name) as [m'|]; [apply IH|done].
Qed.

End Recording.

(** X5: a call that comes from the backend itself is never recorded and
    never changes which methods are installed, whatever its arguments are
    (none at all, or keys that are not strings): it goes straight to the
    original method, and so do all the calls that one makes. *)
Theorem internal_call_not_recorded {D L : Type} pkg (fuel : nat) (self a : string)
    (cb : CacheOp → L → L) (func : Method D L)
    (args : list PyVal) (kwargs : Kwargs) (b : Backend D L) (l : L) :
  invoke pkg fuel self (Inner a cb func) (Some self) args kwargs (b, l)
  = invoke pkg fuel self func (Some self) args kwargs (b, l)
  ∧ keeps b l (invoke pkg fuel self (Inner a cb func) (Some self) args kwargs (b, l)).
Proof.
  split; [|apply invoke_internal_keeps].
  rewrite invoke_Inner. unfold inner. by rewrite bool_decide_eq_true_2.
Qed.

Lemma inner_external_outcome {D L : Type} pkg (fuel : nat) (self a : string)
    (cb : CacheOp → L → L) (func : Method D L) (caller : Frame)
    (v : PyVal) (rest : list PyVal) (kwargs : Kwargs) (b : Backend D L) (l : L) :
  caller ≠ Some self → string_keys v = true →
  ∃ cache_op,
    CacheOp_init pkg a (__name__ func) v = ok cache_op
    ∧ match invoke pkg fuel self (Inner a cb func) caller (v :: rest) kwargs (b, l) with
      | Some (_, (b', l')) => l' = cb cache_op l ∧ methods b' = methods b
      | None => invoke pkg fuel self func (Some self) (v :: rest) kwargs (b, l) = None
      end.
Proof.
  intros Hext Hv.
  destruct (CacheOp_init_string_keys pkg a (__name__ func) v Hv) as [op Hop].
  exists op. split; [done|].
  rewrite invoke_Inner. unfold inner.
  rewrite bool_decide_eq_false_2 by done. cbn [negb]. rewrite Hop.
  unfold ok. cbn [fst snd].
  pose proof (invoke_internal_keeps pkg self fuel func (v :: rest) kwargs b (cb op l))
    as Hk.
  pose proof (invoke_same_outcome pkg self fuel func func (Some self) (Some self)
                (v :: rest) kwargs b b (cb op l) l eq_refl
                (or_introl eq_refl) (or_introl eq_refl) (same_backend_refl b)) as Hs.
  destruct (invoke pkg fuel self func (Some self) (v :: rest) kwargs (b, cb op l))
    as [[r [b' l']]|].
  - cbn in Hk. by destruct Hk.
  - cbn in Hs.
    by destruct (invoke pkg fuel self func (Some self) (v :: rest) kwargs (b, l))
      as [[r [b' l']]|].
Qed.

(** X6: a call from outside the backend with string keys records exactly
    one event, the one for the method called: when the call ends, the
    recording is the callback applied once to that event, however many of the
    backend's own methods ran underneath, and the installed methods are the
    same. *)
Theorem external_call_records_once {D L : Type} pkg (fuel : nat) (self a : string)
    (cb : CacheOp → L → L) (func : Method D L) (caller : Frame)
    (v : PyVal) (rest : list PyVal) (kwargs : Kwargs) (b : Backend D L) (l : L) :
  caller ≠ Some self → string_keys v = true →
  ∃ cache_op,
    CacheOp_init pkg a (__name__ func) v = ok cache_op
    ∧ match invoke pkg fuel self (Inner a cb func) caller (v :: rest) kwargs (b, l) with
      | Some (_, (b', l')) => l' = cb cache_op l ∧ methods b' = methods b
      | None => invoke pkg fuel self func (Some self) (v :: rest) kwargs (b, l) = None
      end.
Proof. apply inner_external_outcome. Qed.

Lemma external_call_records_once_witness :
  let b : Backend Sample.Store (list CacheOp) := Sample.backend ∅ in
  let m := Inner "default" Sample.append (Bound "add" Sample.add_) in
  ∃ cache_op,
    CacheOp_init django_perf_rec "default" "add" (PyStr "user:12") = ok cache_op
    ∧ match invoke django_perf_rec 3 "default" m None
              [PyStr "user:12"; PyInt 3] [] (b, []) with
      | Some (_, (b', l')) => l' = Sample.append cache_op [] ∧ methods b' = methods b
      | None =>
          invoke django_perf_rec 3 "default" (Bound "add" Sample.add_)
            (Some "default") [PyStr "user:12"; PyInt 3] [] (b, []) = None
      end.
Proof.
  apply (external_call_records_once django_perf_rec 3 "default" "default"
           Sample.append (Bound "add" Sample.add_) None (PyStr "user:12")
           [PyInt 3] [] (Sample.backend ∅) []).
  - discriminate.
  - reflexivity.
Defined.

(** X7: with two recorders attached to the same backend, a call from
    outside is recorded by the recorder attached last only: the wrapper of the
    first recorder is called from the frame of the second wrapper, whose
    [self] is the cache, and takes the call for an internal one. *)
Theorem nested_recorders_outermost_only {D L : Type} pkg (fuel : nat)
    (a name : string) (cb1 cb2 : CacheOp → L → L) (caller : Frame)
    (v : PyVal) (rest : list PyVal) (kwargs : Kwargs)
    (caches : Caches D L) (b : Backend D L) (l : L) :
  caches !! a = Some b → instrumentable b →
  name ∈ cache_methods → caller ≠ Some a → string_keys v = true →
  ∃ r1 b1 r2 b2 m cache_op,
    CacheRecorder_enter (mkCacheRecorder a cb1 None) caches
    = (ok r1, <[a := b1]> caches)
    ∧ CacheRecorder_enter (mkCacheRecorder a cb2 None) (<[a := b1]> caches)
      = (ok r2, <[a := b2]> (<[a := b1]> caches))
    ∧ methods b !! name = Some m
    ∧ methods b2 !! name = Some (Inner a cb2 (Inner a cb1 m))
    ∧ CacheOp_init pkg a (__name__ m) v = ok cache_op
    ∧ match invoke pkg fuel a (Inner a cb2 (Inner a cb1 m)) caller
              (v :: rest) kwargs (b2, l) with
      | Some (_, (_, l')) => l' = cb2 cache_op l
      | None => invoke pkg fuel a m (Some a) (v :: rest) kwargs (b2, l) = None
      end.
Proof.
  intros Ha Hb Hname Hext Hv.
  destruct (CacheRecorder_enter_spec a cb1 caches b Ha Hb)
    as (orig1 & b1 & Henter1 & Hd1 & Horig1 & Hm1).
  assert (Hb1 : instrumentable b1).
  { intros n Hn. rewrite Hm1, decide_True by done.
    destruct (Hb n Hn) as [m ->]. by eexists. }
  destruct (CacheRecorder_enter_spec a cb2 (<[a := b1]> caches) b1
              (lookup_insert_eq _ _ _) Hb1)
    as (orig2 & b2 & Henter2 & Hd2 & Horig2 & Hm2).
  destruct (Hb name Hname) as [m Hmeth].
  destruct (inner_external_outcome pkg fuel a a cb2 (Inner a cb1 m) caller v rest
              kwargs b2 l Hext Hv) as (op & Hop & Hout).
  exists (mkCacheRecorder a cb1 (Some orig1)), b1,
    (mkCacheRecorder a cb2 (Some orig2)), b2, m, op.
  split_and!.
  - exact Henter1.
  - exact Henter2.
  - exact Hmeth.
  - rewrite Hm2, decide_True, Hm1, decide_True, Hmeth by done. done.
  - exact Hop.
  - destruct (invoke pkg fuel a (Inner a cb2 (Inner a cb1 m)) caller (v :: rest)
                kwargs (b2, l)) as [[r [b' l']]|].
    + by destruct Hout.
    + rewrite invoke_Inner in Hout. unfold inner in Hout.
      by rewrite bool_decide_eq_true_2 in Hout.
Qed.

Lemma nested_recorders_outermost_only_witness :
  let caches : Caches Sample.Store (list CacheOp) :=
    {["default" := Sample.backend ∅]} in
  let first (op : CacheOp) (l : list CacheOp) : list CacheOp := [] in
  ∃ r1 b1 r2 b2 m cache_op,
    CacheRecorder_enter (mkCacheRecorder "default" first None) caches
    = (ok r1, <["default" := b1]> caches)
    ∧ CacheRecorder_enter (mkCacheRecorder "default" Sample.append None)
        (<["default" := b1]> caches)
      = (ok r2, <["default" := b2]> (<["default" := b1]> caches))
    ∧ methods (Sample.backend (L := list CacheOp) ∅) !! "get" = Some m
    ∧ methods b2 !! "get" = Some (Inner "default" Sample.append (Inner "default" first m))
    ∧ CacheOp_init django_perf_rec "default" (__name__ m) (PyStr "k") = ok cache_op
    ∧ match invoke django_perf_rec 2 "default"
              (Inner "default" Sample.append (Inner "default" first m)) None
              [PyStr "k"] [] (b2, []) with
      | Some (_, (_, l')) => l' = Sample.append cache_op []
      | None =>
          invoke django_perf_rec 2 "default" m (Some "default") [PyStr "k"] []
            (b2, []) = None
      end.
Proof.
  apply (nested_recorders_outermost_only django_perf_rec 2 "default" "get"
           (λ _ _, []) Sample.append None (PyStr "k") [] []
           {["default" := Sample.backend ∅]} (Sample.backend ∅) []).
  - reflexivity.
  - apply sample_instrumentable.
  - unfold cache_methods. do 4 apply list_elem_of_further. apply list_elem_of_here.
  - discriminate.
  - reflexivity.
Defined.

(** ** Failing to attach or detach *)

Lemma dict_of_methods_missing {D L : Type} (a name : string) (names : list string)
    (acc : gmap string (Method D L)) (caches : Caches D L) (b : Backend D L) :
  caches !! a = Some b → name ∈ names → methods b !! name = None →
  dict_of_methods a names acc caches = (raise AttributeError, caches).
Proof.
  intros Ha Hin Hnone. revert acc.
  induction names as [|n names IH]; intros acc; [by apply elem_of_nil in Hin|].
  cbn [dict_of_methods]. unfold bind, getattr. rewrite Ha. cbn.
  destruct (methods b !! n) as [m|] eqn:Hn; [|done].
  apply IH. apply elem_of_cons in Hin as [->|Hin]; [congruence|done].
Qed.

(** X8: [CacheRecorder.__enter__] reads all nine methods before it
    replaces any: on a backend that lacks one of them it raises
    [AttributeError] and no method of any backend has been replaced. *)
Theorem CacheRecorder_enter_missing_method {D L : Type} (self : CacheRecorder D L)
    (name : string) (caches : Caches D L) (b : Backend D L) :
  caches !! recorder_alias self = Some b →
  name ∈ cache_methods → methods b !! name = None →
  CacheRecorder_enter self caches = (raise AttributeError, caches).
Proof.
  intros Ha Hin Hnone. unfold CacheRecorder_enter.
  erewrite bind_ok; [|unfold caches_getitem; by rewrite Ha].
  unfold bind.
  by rewrite (dict_of_methods_missing _ name _ _ _ b Ha Hin Hnone).
Qed.

Lemma CacheRecorder_enter_missing_method_witness :
  let b : Backend Sample.Store (list CacheOp) :=
    mkBackend (delete "incr" Sample.class_methods) ∅ in
  let caches : Caches Sample.Store (list CacheOp) := {["default" := b]} in
  CacheRecorder_enter (mkCacheRecorder "default" Sample.append None) caches
  = (raise AttributeError, caches).
Proof.
  apply (CacheRecorder_enter_missing_method
           (mkCacheRecorder "default" Sample.append None) "incr"
           {["default" := mkBackend (delete "incr" Sample.class_methods) ∅]}
           (mkBackend (delete "incr" Sample.class_methods) ∅)).
  - reflexivity.
  - unfold cache_methods. do 6 apply list_elem_of_further. apply list_elem_of_here.
  - reflexivity.
Defined.

Lemma for_each_preserves {S A} (P : S → Prop) (l : list A) (body : A → M S unit)
    (s s' : S) (r : Result unit) :
  (∀ x s0 r0 s1, body x s0 = (r0, s1) → P s0 → P s1) →
  P s → for_each l body s = (r, s') → P s'.
Proof.
  intros Hbody. revert s. induction l as [|x l IH]; intros s Hs.
  - cbn. by intros [= _ <-].
  - cbn [for_each]. unfold bind.
    destruct (body x s) as [[e|[]] s1] eqn:Hx.
    + intros [= _ <-]. by eapply Hbody.
    + apply IH. by eapply Hbody.
Qed.

(** X9: a recorder can be released once.  [__exit__] deletes
    [orig_methods], so releasing the recorder again raises [AttributeError]
    and leaves every backend as the first release restored it. *)
Theorem CacheRecorder_exit_twice {D L : Type} (self self' : CacheRecorder D L)
    (exc exc' : ExcInfo) (caches caches' : Caches D L) :
  CacheRecorder_exit self exc caches = (ok self', caches') →
  orig_methods self' = None
  ∧ CacheRecorder_exit self' exc' caches' = (raise AttributeError, caches').
Proof.
  intros Hexit. unfold CacheRecorder_exit, bind, caches_getitem, ret, ok in Hexit.
  destruct (caches !! recorder_alias self) as [b|] eqn:Ha; [|done].
  cbn beta iota in Hexit.
  destruct (for_each _ _ _) as [[e|[]] caches1] eqn:Hloop in Hexit; [done|].
  injection Hexit as <- <-. split; [done|].
  assert (Hsome : is_Some (caches1 !! recorder_alias self)).
  { eapply (for_each_preserves (λ cs : Caches D L, is_Some (cs !! recorder_alias self)));
      [|by eexists|exact Hloop].
    intros name cs r0 cs1 Hbody [b0 Hb0].
    destruct (orig_methods self) as [orig|]; [|by injection Hbody as _ <-; eexists].
    unfold bind, getitem in Hbody.
    destruct (orig !! name) as [m|]; cbn in Hbody.
    - injection Hbody as _ <-. rewrite lookup_alter, decide_True, Hb0 by done.
      by eexists.
    - injection Hbody as _ <-. by eexists. }
  destruct Hsome as [b1 Hb1].
  unfold CacheRecorder_exit. cbn [recorder_alias orig_methods].
  erewrite bind_ok; [|unfold caches_getitem; by rewrite Hb1].
  reflexivity.
Qed.

Lemma CacheRecorder_exit_twice_witness :
  let caches : Caches Sample.Store (list CacheOp) :=
    {["default" := Sample.backend ∅]} in
  let self := mkCacheRecorder "default" Sample.append (Some Sample.class_methods) in
  ∃ self' caches',
    CacheRecorder_exit self None caches = (ok self', caches')
    ∧ orig_methods self' = None
    ∧ CacheRecorder_exit self' (Some TypeError) caches'
      = (raise AttributeError, caches').
Proof.
  cbv zeta. eexists _, _. split; [vm_compute; reflexivity|].
  eapply (CacheRecorder_exit_twice
            (mkCacheRecorder "default" Sample.append (Some Sample.class_methods))
            _ None (Some TypeError) {["default" := Sample.backend ∅]}).
  vm_compute. reflexivity.
Defined.
